(** * Movie genre classifier: lookup client, classification pipeline, exporter

    A shallow embedding of [config.py], [api_handler.py] and
    [movie_classifier.py].

    Python values are an inductive type [pyval]; a [dict] with string keys is
    an association list in insertion order; the [classified_movies] mapping
    is a [gmap].  A [str] is represented by the UTF-8 encoding of its code
    points as a Rocq [string], so the en-dash of [get_movie_data] is the
    three-byte literal.  A Python [str] may hold lone surrogates; they are
    represented the same way, by their three bytes, and [str.encode()]
    returns the string itself unless it holds one, in which case it raises
    [UnicodeEncodeError].  The file system under [cache/], the
    lookup service and the fate of disk writes are fields of an explicit
    [world] that every effectful function threads through; exceptions are an
    [outcome]. *)

From Stdlib Require Import ZArith Floats Uint63 Ascii.
From stdpp Require Import gmap strings list fin_maps.

Local Open Scope string_scope.
Local Open Scope list_scope.
#[local] Set Warnings "-register-all,-clear-no-such-hyp".

(** ** Python values *)

Inductive pyval : Type :=
| PNone
| PBool (b : bool)
| PInt (z : Z)
| PFloat (f : float)
| PStr (s : string)
| PList (l : list pyval)
| PDict (d : list (string * pyval)).

(** [bool(v)] *)
Definition truthy (v : pyval) : bool :=
  match v with
  | PNone => false
  | PBool b => b
  | PInt z => negb (z =? 0)%Z
  | PFloat f => negb (PrimFloat.eqb f 0%float)
  | PStr s => negb (String.eqb s "")
  | PList l => match l with [] => false | _ => true end
  | PDict d => match d with [] => false | _ => true end
  end.

(** [v == s] for a [str] literal [s]: only an equal [str] compares equal. *)
Definition eq_str (v : pyval) (s : string) : bool :=
  match v with
  | PStr t => String.eqb t s
  | _ => false
  end.

(** [v == [s1, ..., sn]] for a list of [str] literals. *)
Fixpoint eq_strs (l : list pyval) (ss : list string) : bool :=
  match l, ss with
  | [], [] => true
  | v :: l', s :: ss' => eq_str v s && eq_strs l' ss'
  | _, _ => false
  end.

Definition eq_str_list (v : pyval) (ss : list string) : bool :=
  match v with
  | PList l => eq_strs l ss
  | _ => false
  end.

(** ** Dictionaries with string keys *)

Definition pydict := list (string * pyval).

Fixpoint dict_get (d : pydict) (k : string) : option pyval :=
  match d with
  | [] => None
  | (k', v) :: d' => if String.eqb k' k then Some v else dict_get d' k
  end.

(** [d[k] = v]: overwrite in place, or append a new key. *)
Fixpoint dict_set (d : pydict) (k : string) (v : pyval) : pydict :=
  match d with
  | [] => [(k, v)]
  | (k', v') :: d' =>
      if String.eqb k' k then (k', v) :: d' else (k', v') :: dict_set d' k v
  end.

(** [d.get(k, dflt)] *)
Definition get_or (d : pydict) (k : string) (dflt : pyval) : pyval :=
  match dict_get d k with
  | Some v => v
  | None => dflt
  end.

(** ** The [str] methods the code calls *)

(** [s.replace(old, new)], for a non-empty [old] (the only use has the
    en-dash).  [skip] counts the characters of a matched [old] still to be
    passed over. *)
Fixpoint replace_from (old new s : string) (skip : nat) : string :=
  match s with
  | EmptyString => EmptyString
  | String c rest =>
      match skip with
      | S k => replace_from old new rest k
      | O =>
          if String.prefix old s
          then new +:+ replace_from old new rest (String.length old - 1)
          else String c (replace_from old new rest 0)
      end
  end.

Definition replace (old new s : string) : string := replace_from old new s 0.

(** [s.split(sep)], for a non-empty [sep]: the pieces between the
    occurrences of [sep], read left to right; there is always at least one
    piece. *)
Fixpoint split_from (sep s : string) (skip : nat) : list string :=
  match s with
  | EmptyString => [""]
  | String c rest =>
      match skip with
      | S k => split_from sep rest k
      | O =>
          if String.prefix sep s
          then "" :: split_from sep rest (String.length sep - 1)
          else
            match split_from sep rest 0 with
            | piece :: pieces => String c piece :: pieces
            | [] => [String c ""]
            end
      end
  end.

Definition split (sep s : string) : list string := split_from sep s 0.

(** [sep.join(l)] *)
Fixpoint join (sep : string) (l : list string) : string :=
  match l with
  | [] => ""
  | [s] => s
  | s :: l' => s +:+ sep +:+ join sep l'
  end.

(** [sub in s] on two [str] *)
Fixpoint has_substring (sub s : string) : bool :=
  String.prefix sub s
  || match s with
     | EmptyString => false
     | String _ rest => has_substring sub rest
     end.

(** ** config.py *)

(** [os.getenv('OMDB_API_KEY', '4bcd5aba')]: [env] is the value of the
    environment variable, [None] when it is not set. *)
Definition OMDB_API_KEY (env : option string) : string :=
  default "4bcd5aba" env.

Definition DEFAULT_GENRES : list string :=
  [ "Action"; "Adventure"; "Animation"; "Comedy"; "Crime";
    "Documentary"; "Drama"; "Family"; "Fantasy"; "History";
    "Horror"; "Music"; "Mystery"; "Romance"; "Science Fiction";
    "TV Movie"; "Thriller"; "War"; "Western" ].

(** ** Exceptions *)

Inductive exn : Type :=
| AttributeError
| TypeError
| KeyError
| IndexError
| RequestException      (* connection errors, timeouts, HTTPError *)
| JSONDecodeError
| UnicodeEncodeError.

Inductive outcome (A : Type) : Type :=
| Returns (a : A)
| Raises (e : exn).
Arguments Returns {A} a.
Arguments Raises {A} e.

Definition and_then {A B} (o : outcome A) (k : A -> outcome B) : outcome B :=
  match o with
  | Returns a => k a
  | Raises e => Raises e
  end.

Notation "x <~ c ;; k" := (and_then c (fun x => k))
  (at level 100, c at next level, right associativity).

(** ** [str.encode()]

    The code points U+D800 to U+DFFF, the surrogates, are the three-byte
    sequences that start with [ED A0] to [ED BF]; no other sequence has the
    byte [ED] followed by a byte from [A0] to [BF].  The default codec,
    UTF-8 with strict error handling, refuses them. *)
Definition is_surrogate (a b : ascii) : bool :=
  ((nat_of_ascii a =? 237) && (160 <=? nat_of_ascii b)
   && (nat_of_ascii b <=? 191))%nat.

Fixpoint has_surrogate (s : string) : bool :=
  match s with
  | String a (String b _ as rest) => is_surrogate a b || has_surrogate rest
  | _ => false
  end.

(** [s.encode()]: the bytes of [s], or [UnicodeEncodeError]. *)
Definition encode (s : string) : outcome string :=
  if has_surrogate s then Raises UnicodeEncodeError else Returns s.

(** Operations of the interpreter that fail on values of the wrong type. *)

(** [k in v] *)
Definition contains (v : pyval) (k : string) : outcome bool :=
  match v with
  | PDict d => Returns (bool_decide (is_Some (dict_get d k)))
  | PList l => Returns (existsb (fun x => eq_str x k) l)
  | PStr s => Returns (has_substring k s)
  | _ => Raises TypeError
  end.

(** [v[k]] for a [str] key [k] *)
Definition subscript (v : pyval) (k : string) : outcome pyval :=
  match v with
  | PDict d =>
      match dict_get d k with
      | Some x => Returns x
      | None => Raises KeyError
      end
  | _ => Raises TypeError
  end.

(** [v.get(k, dflt)]: only a [dict] has the method. *)
Definition method_get (v : pyval) (k : string) (dflt : pyval)
  : outcome pyval :=
  match v with
  | PDict d => Returns (get_or d k dflt)
  | _ => Raises AttributeError
  end.

(** [v.split(sep)]: only a [str] has the method. *)
Definition method_split (v : pyval) (sep : string) : outcome pyval :=
  match v with
  | PStr s => Returns (PList (PStr <$> split sep s))
  | _ => Raises AttributeError
  end.

(** [v.replace(old, new)] *)
Definition method_replace (v : pyval) (old new : string) : outcome pyval :=
  match v with
  | PStr s => Returns (PStr (replace old new s))
  | _ => Raises AttributeError
  end.

(** [v[0]] on the list that [split] returned *)
Definition first_item (v : pyval) : outcome pyval :=
  match v with
  | PList (x :: _) => Returns x
  | PList [] => Raises IndexError
  | _ => Raises TypeError
  end.

(** ** The world outside the process *)

(** What [open] followed by [json.load] finds in a cache file: a value, or
    a file that cannot be opened or parsed. *)
Inductive file : Type :=
| Unreadable
| Holds (v : pyval).

(** What [requests.get] meets: no response at all (connection error or
    timeout), or a response with a status code and a body that parses as
    JSON or does not. *)
Inductive reply : Type :=
| NoResponse
| Response (status : nat) (body : option pyval).

(** The fate of one cache write: done; [open] fails and the file is left
    as it was; [json.dump] fails midway and leaves a truncated file. *)
Inductive write : Type :=
| Written
| OpenFails
| DumpFails.

Record world : Type := World {
  files : gmap string file;     (* path -> content *)
  service : list reply;         (* what the coming requests will meet *)
  disk : list write;            (* the fate of the coming cache writes *)
  sent : list string;           (* the [t] parameter of every request issued *)
  shown : list (nat * nat)      (* calls of the progress callback *)
}.

Definition py (A : Type) : Type := world -> outcome A * world.

Definition ret {A} (a : A) : py A := fun w => (Returns a, w).

Definition bind {A B} (c : py A) (k : A -> py B) : py B :=
  fun w =>
    match c w with
    | (Returns a, w') => k a w'
    | (Raises e, w') => (Raises e, w')
    end.

Definition lift {A} (o : outcome A) : py A := fun w => (o, w).

(** [try: body  except Exception: handler] (every [exn] is an [Exception]) *)
Definition try_except {A} (body : py A) (handler : exn -> py A) : py A :=
  fun w =>
    match body w with
    | (Returns a, w') => (Returns a, w')
    | (Raises e, w') => handler e w'
    end.

Notation "x <- c ;; k" := (bind c (fun x => k))
  (at level 100, c at next level, right associativity).

(** The world after one more request for [movie_title]: the request is
    logged and the next reply of the service is consumed. *)
Definition request_sent (movie_title : string) (w : world) : world :=
  {| files := files w; service := tail (service w); disk := disk w;
     sent := sent w ++ [movie_title]; shown := shown w |}.

(** The world after one more cache write, which left [files'] on disk. *)
Definition write_done (files' : gmap string file) (w : world) : world :=
  {| files := files'; service := service w; disk := tail (disk w);
     sent := sent w; shown := shown w |}.

(** [requests.get(OMDB_BASE_URL, params={..., 't': movie_title, ...},
    timeout=10)].  A service with nothing lined up does not answer. *)
Definition requests_get (movie_title : string) : py (nat * option pyval) :=
  fun w =>
    match service w with
    | Response status body :: _ =>
        (Returns (status, body), request_sent movie_title w)
    | NoResponse :: _ | [] =>
        (Raises RequestException, request_sent movie_title w)
    end.

(** [response.raise_for_status()]: HTTPError on a 4xx or 5xx status. *)
Definition raise_for_status (response : nat * option pyval) : outcome unit :=
  if ((400 <=? response.1) && (response.1 <? 600))%nat
  then Raises RequestException
  else Returns tt.

(** [response.json()] *)
Definition response_json (response : nat * option pyval) : outcome pyval :=
  match response.2 with
  | Some v => Returns v
  | None => Raises JSONDecodeError
  end.

(** ** api_handler.py *)

Record MovieAPIHandler : Type := {
  omdb_api_key : string;
  cache_dir : string
}.

(** [__init__]; the directory itself is not modelled, files are found by
    their path. *)
Definition new_handler (env : option string) : MovieAPIHandler :=
  {| omdb_api_key := OMDB_API_KEY env; cache_dir := "cache" |}.

Section api_handler.

(** [str.lower] and [hashlib.md5(...).hexdigest()] are library functions;
    the development is parametric in them. *)
Variable lower : string -> string.
Variable md5_hexdigest : string -> string.

Variable self : MovieAPIHandler.

(** [encode] is called on the lowercased title and may raise. *)
Definition _get_cache_path (movie_title : string) : outcome string :=
  data <~ encode (lower movie_title) ;;
  let filename := md5_hexdigest data +:+ ".json" in
  Returns (cache_dir self +:+ "/" +:+ filename).

(** The path is computed before the [try]: what [_get_cache_path] raises
    is not handled here. *)
Definition _load_from_cache (movie_title : string) : py pyval :=
  cache_path <- lift (_get_cache_path movie_title) ;;
  fun w =>
    match files w !! cache_path with
    | Some (Holds v) => (Returns v, w)
    | Some Unreadable => (Returns PNone, w)   (* except: pass *)
    | None => (Returns PNone, w)
    end.

(** Here too the path is computed before the [try]. *)
Definition _save_to_cache (movie_title : string) (data : pyval) : py unit :=
  cache_path <- lift (_get_cache_path movie_title) ;;
  fun w =>
    match disk w with
    | [] | Written :: _ =>
        (Returns tt, write_done (<[cache_path := Holds data]> (files w)) w)
    | DumpFails :: _ =>                                   (* except: pass *)
        (Returns tt, write_done (<[cache_path := Unreadable]> (files w)) w)
    | OpenFails :: _ =>                                   (* except: pass *)
        (Returns tt, write_done (files w) w)
    end.

(** The cache is read outside the [try], the cache is written inside it.
    The two [print] calls of the handlers are not modelled. *)
Definition search_movie_omdb (movie_title : string) : py pyval :=
  if negb (truthy (PStr (omdb_api_key self)))
     || String.eqb (omdb_api_key self) "4bcd5aba"
  then ret PNone
  else
    cached_data <- _load_from_cache movie_title ;;
    hit <- lift (if truthy cached_data then contains cached_data "omdb"
                 else Returns false) ;;
    if (hit : bool) then lift (subscript cached_data "omdb")
    else
      try_except
        (response <- requests_get movie_title ;;
         _ <- lift (raise_for_status response) ;;
         data <- lift (response_json response) ;;
         status <- lift (method_get data "Response" PNone) ;;
         if eq_str status "True"
         then
           _ <- _save_to_cache movie_title (PDict [("omdb", data)]) ;;
           ret data
         else ret PNone)
        (fun _ => ret PNone).

(** The [movie_data] built from a truthy [omdb_data], key by key. *)
Definition found_record (omdb_data : pyval) (movie_title : string)
  : outcome pydict :=
  let movie_data := dict_set [] "omdb" omdb_data in
  title <~ method_get omdb_data "Title" (PStr movie_title) ;;
  let movie_data := dict_set movie_data "title" title in
  genre <~ method_get omdb_data "Genre" PNone ;;
  genres <~ (if truthy genre
             then g <~ method_get omdb_data "Genre" (PStr "") ;;
                  method_split g ", "
             else Returns (PList [])) ;;
  let movie_data := dict_set movie_data "genres" genres in
  y <~ method_get omdb_data "Year" (PStr "Unknown") ;;
  y <~ method_replace y "–" "" ;;
  y <~ method_split y "–" ;;
  year <~ first_item y ;;
  let movie_data := dict_set movie_data "year" year in
  plot <~ method_get omdb_data "Plot" (PStr "") ;;
  let movie_data := dict_set movie_data "overview" plot in
  rating <~ method_get omdb_data "imdbRating" PNone ;;
  let movie_data := dict_set movie_data "rating" rating in
  Returns (dict_set movie_data "source" (PStr "OMDb")).

(** The minimal data of a title without API data. *)
Definition not_found_record (movie_title : string) : pydict :=
  [ ("title", PStr movie_title);
    ("genres", PList [PStr "Unknown"]);
    ("year", PStr "Unknown");
    ("overview", PStr "No information available");
    ("rating", PNone);
    ("source", PStr "Not Found") ].

Definition get_movie_data (movie_title : string) : py pyval :=
  omdb_data <- search_movie_omdb movie_title ;;
  movie_data <- lift (if truthy omdb_data
                      then found_record omdb_data movie_title
                      else Returns []) ;;
  let movie_data :=
    if negb (truthy (PDict movie_data))
    then not_found_record movie_title
    else movie_data in
  ret (PDict movie_data).

End api_handler.

(** ** movie_classifier.py *)

(** [for x in v]: the items a [for] loop (or [join]) visits.  Iterating a
    [str] visits its characters (here: the bytes of its encoding; the
    records of this program never have a [str] there), a [dict] its keys. *)
Fixpoint characters (s : string) : list pyval :=
  match s with
  | EmptyString => []
  | String c rest => PStr (String c "") :: characters rest
  end.

Definition iterate (v : pyval) : outcome (list pyval) :=
  match v with
  | PList l => Returns l
  | PStr s => Returns (characters s)
  | PDict d => Returns ((fun kv => PStr kv.1) <$> d)
  | _ => Raises TypeError
  end.

(** [sep.join(v)]: every item must be a [str]. *)
Fixpoint strings_of (l : list pyval) : outcome (list string) :=
  match l with
  | [] => Returns []
  | PStr s :: l' => ss <~ strings_of l' ;; Returns (s :: ss)
  | _ :: _ => Raises TypeError
  end.

Definition method_join (sep : string) (v : pyval) : outcome pyval :=
  items <~ iterate v ;;
  ss <~ strings_of items ;;
  Returns (PStr (join sep ss)).

(** [classified_movies]: genre name -> the records filed under it. *)
Abbreviation buckets := (gmap string (list pyval)).

(** [{genre: [] for genre in DEFAULT_GENRES}], then
    [classified_movies['Unknown'] = []] *)
Definition empty_buckets : buckets :=
  <["Unknown" := []]>
    (list_to_map ((fun genre => (genre, [])) <$> DEFAULT_GENRES)).

(** [classified_movies[key].append(movie_data)] *)
Definition append_to (classified_movies : buckets) (key : string)
    (movie_data : pyval) : outcome buckets :=
  match classified_movies !! key with
  | Some l => Returns (<[key := l ++ [movie_data]]> classified_movies)
  | None => Raises KeyError
  end.

(** One round of [for genre in genres]: a list or a dict is not hashable,
    any other value that is not a [str] is no key of the mapping. *)
Definition file_under (genre : pyval) (movie_data : pyval)
    (classified_movies : buckets) : outcome buckets :=
  match genre with
  | PStr g =>
      if bool_decide (is_Some (classified_movies !! g))
      then append_to classified_movies g movie_data
      else append_to classified_movies "Unknown" movie_data
  | PList _ | PDict _ => Raises TypeError
  | _ => append_to classified_movies "Unknown" movie_data
  end.

Fixpoint file_under_each (genres : list pyval) (movie_data : pyval)
    (classified_movies : buckets) : outcome buckets :=
  match genres with
  | [] => Returns classified_movies
  | genre :: rest =>
      classified_movies <~ file_under genre movie_data classified_movies ;;
      file_under_each rest movie_data classified_movies
  end.

(** "Add to genre categories" *)
Definition add_to_categories (movie_data : pyval)
    (classified_movies : buckets) : outcome buckets :=
  genres <~ method_get movie_data "genres" (PList []) ;;
  if negb (truthy genres)
  then append_to classified_movies "Unknown" movie_data
  else
    items <~ iterate genres ;;
    file_under_each items movie_data classified_movies.

Record MovieGenreClassifier : Type := {
  api_handler : MovieAPIHandler;
  processed_movies : list pyval
}.

Definition new_classifier (env : option string) : MovieGenreClassifier :=
  {| api_handler := new_handler env; processed_movies := [] |}.

(** [progress_callback(i + 1, total_movies)], when a callback was passed;
    the callback is modelled as one that records its arguments. *)
Definition report (progress_callback : bool) (current total : nat)
    (w : world) : world :=
  if progress_callback
  then {| files := files w; service := service w; disk := disk w;
          sent := sent w; shown := shown w ++ [(current, total)] |}
  else w.

Section movie_classifier.

Variable lower : string -> string.
Variable md5_hexdigest : string -> string.
(** [str.strip] *)
Variable strip : string -> string.

(** The body of [for i, title in enumerate(movie_titles)], from index [i]
    on.  The result carries the object's [processed_movies] along, which
    keeps what was appended when a later step raises.  [time.sleep(0.1)]
    has no counterpart. *)
Fixpoint classify_loop (handler : MovieAPIHandler)
    (progress_callback : bool) (total_movies : nat)
    (movie_titles : list string) (i : nat)
    (classified_movies : buckets) (processed : list pyval) (w : world)
  : outcome buckets * list pyval * world :=
  match movie_titles with
  | [] => (Returns classified_movies, processed, w)
  | title :: rest =>
      let w := report progress_callback (i + 1) total_movies w in
      match get_movie_data lower md5_hexdigest handler (strip title) w with
      | (Raises e, w) => (Raises e, processed, w)
      | (Returns movie_data, w) =>
          let processed := processed ++ [movie_data] in
          match add_to_categories movie_data classified_movies with
          | Raises e => (Raises e, processed, w)
          | Returns classified_movies =>
              classify_loop handler progress_callback total_movies
                rest (S i) classified_movies processed w
          end
      end
  end.

Definition classify_movies (self : MovieGenreClassifier)
    (movie_titles : list string) (progress_callback : bool) (w : world)
  : outcome buckets * MovieGenreClassifier * world :=
  let total_movies := length movie_titles in
  match classify_loop (api_handler self) progress_callback total_movies
          movie_titles 0 empty_buckets [] w with
  | (result, processed, w) =>
      (result,
       {| api_handler := api_handler self; processed_movies := processed |},
       w)
  end.

End movie_classifier.

(** [float(n)] for a count [n] (exact below 2^53, as in Python) *)
Definition float_of_nat (n : nat) : float :=
  PrimFloat.of_uint63 (Uint63.of_Z (Z.of_nat n)).

(** [m.get('source') != 'Not Found'] *)
Definition is_found (m : pyval) : outcome bool :=
  source <~ method_get m "source" PNone ;;
  Returns (negb (eq_str source "Not Found")).

(** [not m.get('genres') or m.get('genres') == ['Unknown']] *)
Definition has_unknown_genres (m : pyval) : outcome bool :=
  genres <~ method_get m "genres" PNone ;;
  if negb (truthy genres) then Returns true
  else
    genres <~ method_get m "genres" PNone ;;
    Returns (eq_str_list genres ["Unknown"]).

(** [len([m for m in movies if test(m)])] *)
Fixpoint count_if (test : pyval -> outcome bool) (movies : list pyval)
  : outcome nat :=
  match movies with
  | [] => Returns 0
  | m :: rest =>
      b <~ test m ;;
      n <~ count_if test rest ;;
      Returns (if (b : bool) then S n else n)
  end.

(** One round of the inner loop over [genre_counts].  The keys of the
    model are [str]; processed records only have [str] genres, and on any
    other hashable genre, which Python would count under its own key, the
    model stops with [TypeError] as it does for an unhashable one. *)
Definition count_genre (genre : pyval) (genre_counts : pydict)
  : outcome pydict :=
  match genre with
  | PStr g =>
      match dict_get genre_counts g with
      | Some (PInt n) => Returns (dict_set genre_counts g (PInt (n + 1)))
      | Some _ => Raises TypeError
      | None => Returns (dict_set genre_counts g (PInt 1))
      end
  | _ => Raises TypeError
  end.

Fixpoint count_genres (genres : list pyval) (genre_counts : pydict)
  : outcome pydict :=
  match genres with
  | [] => Returns genre_counts
  | genre :: rest =>
      genre_counts <~ count_genre genre genre_counts ;;
      count_genres rest genre_counts
  end.

Fixpoint count_all (movies : list pyval) (genre_counts : pydict)
  : outcome pydict :=
  match movies with
  | [] => Returns genre_counts
  | movie :: rest =>
      genres <~ method_get movie "genres" (PList []) ;;
      items <~ iterate genres ;;
      genre_counts <~ count_genres items genre_counts ;;
      count_all rest genre_counts
  end.

Definition get_statistics (self : MovieGenreClassifier) : outcome pydict :=
  if negb (truthy (PList (processed_movies self)))
  then Returns []
  else
    let total_movies := length (processed_movies self) in
    found_movies <~ count_if is_found (processed_movies self) ;;
    unknown_genres <~ count_if has_unknown_genres (processed_movies self) ;;
    genre_counts <~ count_all (processed_movies self) [] ;;
    Returns
      [ ("total_movies", PInt (Z.of_nat total_movies));
        ("found_movies", PInt (Z.of_nat found_movies));
        ("not_found_movies",
          PInt (Z.of_nat total_movies - Z.of_nat found_movies));
        ("unknown_genres", PInt (Z.of_nat unknown_genres));
        ("genre_counts", PDict genre_counts);
        ("success_rate",
          if (0 <? total_movies)%nat
          then PFloat (float_of_nat found_movies / float_of_nat total_movies
                       * 100)%float
          else PInt 0) ].

(** One row of [data] in [export_to_dataframe]. *)
Definition export_row (movie : pyval) : outcome pydict :=
  title <~ method_get movie "title" (PStr "") ;;
  year <~ method_get movie "year" (PStr "Unknown") ;;
  genres <~ method_get movie "genres" (PList []) ;;
  genres <~ method_join ", " genres ;;
  rating <~ method_get movie "rating" (PStr "N/A") ;;
  overview <~ method_get movie "overview" (PStr "") ;;
  source <~ method_get movie "source" (PStr "Unknown") ;;
  Returns
    [ ("Title", title); ("Year", year); ("Genres", genres);
      ("Rating", rating); ("Overview", overview); ("Source", source) ].

Fixpoint export_rows (movies : list pyval) : outcome (list pydict) :=
  match movies with
  | [] => Returns []
  | movie :: rest =>
      row <~ export_row movie ;;
      rows <~ export_rows rest ;;
      Returns (row :: rows)
  end.

(** [export_to_dataframe]: the list [data] that [pd.DataFrame] is built
    from, one mapping per row. *)
Definition export_to_dataframe (self : MovieGenreClassifier)
  : outcome (list pydict) :=
  export_rows (processed_movies self).

(** * Notions used in the statements *)

(** ** The branches of [search_movie_omdb] *)

Section notions.

Variable lower : string -> string.
Variable md5_hexdigest : string -> string.
Variable self : MovieAPIHandler.

(** The credential lets a lookup go ahead. *)
Definition usable : Prop :=
  omdb_api_key self <> "" /\ omdb_api_key self <> "4bcd5aba".

(** The title can be encoded: its lowercase form holds no surrogate. *)
Definition encodable (movie_title : string) : Prop :=
  has_surrogate (lower movie_title) = false.

(** The cache path of a title that can be encoded. *)
Definition cache_file (movie_title : string) : string :=
  cache_dir self +:+ "/" +:+ md5_hexdigest (lower movie_title) +:+ ".json".

(** What [_load_from_cache] hands back for such a title. *)
Definition cached (movie_title : string) (w : world) : pyval :=
  match files w !! cache_file movie_title with
  | Some (Holds v) => v
  | _ => PNone
  end.

(** The cache has nothing to offer: [cached_data and 'omdb' in
    cached_data] is false. *)
Definition cache_miss (movie_title : string) (w : world) : Prop :=
  truthy (cached movie_title w) = false \/
  contains (cached movie_title w) "omdb" = Returns false.

(** The network branch of [search_movie_omdb]. *)
Definition request_omdb (movie_title : string) : py pyval :=
  try_except
    (response <- requests_get movie_title ;;
     _ <- lift (raise_for_status response) ;;
     data <- lift (response_json response) ;;
     status <- lift (method_get data "Response" PNone) ;;
     if eq_str status "True"
     then
       _ <- _save_to_cache lower md5_hexdigest self movie_title
              (PDict [("omdb", data)]) ;;
       ret data
     else ret PNone)
    (fun _ => ret PNone).

(** A request that does not end in a match: no reply, a 4xx or 5xx
    status, a body that is not JSON, a body that is no [dict], or one
    whose [Response] is not ["True"]. *)
Definition no_match (r : reply) : bool :=
  match r with
  | NoResponse => true
  | Response status body =>
      ((400 <=? status) && (status <? 600))%nat
      || match body with
         | None => true
         | Some (PDict payload) =>
             negb (eq_str (get_or payload "Response" PNone) "True")
         | Some _ => true
         end
  end.

End notions.

(** Every title of the list, once stripped, can be encoded. *)
Definition encodable_titles (lower strip : string -> string)
    (movie_titles : list string) : Prop :=
  Forall (fun title => encodable lower (strip title)) movie_titles.

(** ** What [found_record] derives from a payload *)

(** The genre list that [found_record] derives from a payload. *)
Definition genres_of (payload : pydict) : list string :=
  match dict_get payload "Genre" with
  | Some (PStr s) => if String.eqb s "" then [] else split ", " s
  | _ => []
  end.

(** The year that [found_record] derives from a payload with a [str]
    (or no) [Year]. *)
Definition year_of (payload : pydict) : string :=
  match get_or payload "Year" (PStr "Unknown") with
  | PStr s => hd "" (split "–" (replace "–" "" s))
  | _ => ""
  end.

(** ** Worlds whose payloads have the provider's shape

    The provider documents [Genre] and [Year] as strings.  A payload is
    [well_typed] when [found_record] can map it: it is falsy, or a [dict]
    whose [Genre] is a [str] or falsy and whose [Year], when present, is a
    [str]. *)

Definition well_typed (omdb_data : pyval) : bool :=
  match omdb_data with
  | PDict payload =>
      match dict_get payload "Genre" with
      | Some (PStr _) | None => true
      | Some genre => negb (truthy genre)
      end
      && match dict_get payload "Year" with
         | Some (PStr _) | None => true
         | Some _ => false
         end
  | _ => negb (truthy omdb_data)
  end.

(** A cache file is in order when it is unreadable (a miss), holds a falsy
    value (a miss), or holds a [dict] whose ['omdb'] entry, if any, is
    well typed. *)
Definition entry_ok (cached_data : pyval) : bool :=
  match cached_data with
  | PDict entry =>
      match dict_get entry "omdb" with
      | Some omdb_data => well_typed omdb_data
      | None => true
      end
  | _ => negb (truthy cached_data)
  end.

Definition file_ok (f : file) : bool :=
  match f with
  | Unreadable => true
  | Holds cached_data => entry_ok cached_data
  end.

(** A reply is in order when its body, if it reports a match, is well
    typed. *)
Definition reply_ok (r : reply) : bool :=
  match r with
  | Response _ (Some (PDict payload)) =>
      if eq_str (get_or payload "Response" PNone) "True"
      then well_typed (PDict payload)
      else true
  | _ => true
  end.

Definition calm (w : world) : Prop :=
  map_Forall (fun _ f => file_ok f = true) (files w) /\
  Forall (fun r => reply_ok r = true) (service w).

(** ** Buckets and genre lists *)

(** The keys of [classified_movies]: the taxonomy and ["Unknown"]. *)
Definition bucket_keys : list string := DEFAULT_GENRES ++ ["Unknown"].

Definition keyed (b : buckets) : Prop :=
  forall k, is_Some (b !! k) <-> k ∈ bucket_keys.

(** The [str] items of a list. *)
Definition str_items (l : list pyval) : list string :=
  omap (fun v => match v with PStr s => Some s | _ => None end) l.

(** The genre list of a record. *)
Definition genre_tags (r : pyval) : list string :=
  match r with
  | PDict d =>
      match dict_get d "genres" with
      | Some (PList l) => str_items l
      | _ => []
      end
  | _ => []
  end.

(** A record whose ['genres'] is a list of [str]. *)
Definition plain (r : pyval) : Prop :=
  exists d gs, r = PDict d /\ dict_get d "genres" = Some (PList (PStr <$> gs)).

(** How often a record with the non-empty genre list [gs] is filed under
    key [k]: once for each genre equal to [k] that is a key, and, under
    ["Unknown"], once more for each genre that is no key. *)
Definition fan_out (k : string) (gs : list string) : nat :=
  length (filter (fun g => g = k /\ g ∈ bucket_keys) gs)
  + (if bool_decide (k = "Unknown")
     then length (filter (fun g => g ∉ bucket_keys) gs)
     else 0).

(** The same for any genre list: a record without genres is filed once,
    under ["Unknown"]. *)
Definition appearances (k : string) (gs : list string) : nat :=
  match gs with
  | [] => if bool_decide (k = "Unknown") then 1 else 0
  | _ => fan_out k gs
  end.

(** The key that one genre of a record lands under. *)
Definition lands (g : string) : string :=
  if bool_decide (g ∈ bucket_keys) then g else "Unknown".

(** ** Records, returns and disks *)

(** What a returned record says about its genres. *)
Definition genres_settled (r : pyval) : Prop :=
  exists d,
    r = PDict d /\
    dict_get d "genres" = Some (PList (PStr <$> genre_tags r)) /\
    (eq_str (get_or d "source" PNone) "Not Found" = true ->
     genre_tags r = ["Unknown"]) /\
    (genre_tags r = [] <->
     exists payload,
       dict_get d "omdb" = Some (PDict payload) /\
       truthy (get_or payload "Genre" PNone) = false).

(** [o] is a normal return. *)
Definition returned {A} (o : outcome A) : bool :=
  match o with
  | Returns _ => true
  | Raises _ => false
  end.

(** The bucket under [k] of a returned mapping. *)
Definition bucket (o : outcome buckets) (k : string) : option (list pyval) :=
  match o with
  | Returns classified => classified !! k
  | Raises _ => None
  end.

(** Every count of a [genre_counts] mapping is an [int]. *)
Definition tallies (genre_counts : pydict) : Prop :=
  forall k v, dict_get genre_counts k = Some v -> exists n, v = PInt n.

(** The same world with another fate for its cache writes. *)
Definition set_disk (d : list write) (w : world) : world :=
  {| files := files w; service := service w; disk := d; sent := sent w;
     shown := shown w |}.


(** What a request brings back: the payload of a match, else [None]. *)
Definition answer (w : world) : pyval :=
  match service w with
  | r :: _ =>
      match r with
      | Response _ (Some (PDict payload)) =>
          if no_match r then PNone else PDict payload
      | _ => PNone
      end
  | [] => PNone
  end.

(** ** The records served for a list of titles *)

Section serving.

Variable lower : string -> string.
Variable md5_hexdigest : string -> string.
Variable strip : string -> string.
Variable handler : MovieAPIHandler.
Variable progress_callback : bool.
Variable total_movies : nat.

(** [served i titles w records w']: looking the titles up one after the
    other, from index [i] in world [w], returns [records], one per title
    and in the same order, and leaves world [w']. *)
Inductive served : nat -> list string -> world -> list pyval -> world -> Prop :=
| served_nil i w : served i [] w [] w
| served_cons i title rest w r w1 records w2 :
    get_movie_data lower md5_hexdigest handler (strip title)
      (report progress_callback (i + 1) total_movies w)
    = (Returns r, w1) ->
    served (S i) rest w1 records w2 ->
    served i (title :: rest) w (r :: records) w2.

End serving.

(** ** Library functions on ASCII text, to run the examples

    [str.lower] and [str.strip] restricted to ASCII; the identity stands in
    for the digest, so that the cache paths of the examples are readable.
    Every theorem below holds for any choice of the three. *)

Definition lower_char (c : ascii) : ascii :=
  let n := nat_of_ascii c in
  if ((65 <=? n) && (n <=? 90))%nat then ascii_of_nat (n + 32) else c.

Fixpoint ascii_lower (s : string) : string :=
  match s with
  | EmptyString => EmptyString
  | String c rest => String (lower_char c) (ascii_lower rest)
  end.

Definition is_space (c : ascii) : bool :=
  let n := nat_of_ascii c in
  ((n =? 32) || ((9 <=? n) && (n <=? 13)) || ((28 <=? n) && (n <=? 31)))%nat.

Fixpoint lstrip (s : string) : string :=
  match s with
  | EmptyString => EmptyString
  | String c rest => if is_space c then lstrip rest else s
  end.

Fixpoint rstrip (s : string) : string :=
  match s with
  | EmptyString => EmptyString
  | String c rest =>
      match rstrip rest with
      | EmptyString => if is_space c then EmptyString else String c EmptyString
      | rest' => String c rest'
      end
  end.

Definition ascii_strip (s : string) : string := rstrip (lstrip s).

Definition readable_digest (s : string) : string := s.

(** ** Worlds, payloads and records of the examples *)

(** A world with an empty cache directory, a disk that works, and the
    given replies lined up. *)
Definition fresh (replies : list reply) : world :=
  {| files := ∅; service := replies; disk := []; sent := []; shown := [] |}.

Definition a_handler : MovieAPIHandler := new_handler (Some "k3y").
Definition a_classifier : MovieGenreClassifier := new_classifier (Some "k3y").

Definition the_matrix : pyval :=
  PDict [ ("Response", PStr "True"); ("Title", PStr "The Matrix");
          ("Genre", PStr "Action, Sci-Fi"); ("Year", PStr "1999");
          ("Plot", PStr "..."); ("imdbRating", PStr "8.7") ].

Definition no_such_movie : pyval :=
  PDict [ ("Response", PStr "False"); ("Error", PStr "Movie not found!") ].

Definition drama_bogus : pyval :=
  PDict [ ("Response", PStr "True"); ("Title", PStr "Mixed");
          ("Genre", PStr "Drama, Bogus"); ("Year", PStr "2001") ].

Definition mixed_record : pyval :=
  PDict [ ("omdb", drama_bogus); ("title", PStr "Mixed");
          ("genres", PList [PStr "Drama"; PStr "Bogus"]);
          ("year", PStr "2001"); ("overview", PStr "");
          ("rating", PNone); ("source", PStr "OMDb") ].

Definition matrix_fields : pydict :=
  [ ("omdb", the_matrix); ("title", PStr "The Matrix");
    ("genres", PList [PStr "Action"; PStr "Sci-Fi"]);
    ("year", PStr "1999"); ("overview", PStr "...");
    ("rating", PStr "8.7"); ("source", PStr "OMDb") ].

Definition matrix_record : pyval := PDict matrix_fields.

(** A classifier that has processed three titles and found one. *)
Definition one_of_three : MovieGenreClassifier :=
  {| api_handler := a_handler;
     processed_movies :=
       [ PDict (not_found_record "a"); matrix_record;
         PDict (not_found_record "b") ] |}.




Definition a_series : pyval :=
  PDict [ ("Response", PStr "True"); ("Title", PStr "The Show");
          ("Genre", PStr "Drama"); ("Year", PStr "2015–2019") ].

Definition series_record : pydict :=
  [ ("omdb", a_series); ("title", PStr "The Show");
    ("genres", PList [PStr "Drama"]); ("year", PStr "20152019");
    ("overview", PStr ""); ("rating", PNone); ("source", PStr "OMDb") ].

Definition default_row : pydict :=
  [ ("Title", PStr "Nonexistent Movie XYZ"); ("Year", PStr "Unknown");
    ("Genres", PStr "Unknown"); ("Rating", PNone);
    ("Overview", PStr "No information available");
    ("Source", PStr "Not Found") ].

(** A world in which the cache file of ["The Matrix"] cannot be read. *)
Definition unreadable_cache : world :=
  {| files := {[ "cache/the matrix.json" := Unreadable ]};
     service := [Response 200 (Some the_matrix)];
     disk := []; sent := []; shown := [] |}.


(** ** app.py

    The part of the interface that computes: the list of tabs of
    [render_genre_tabs].  [st.session_state.classified_movies] is [None]
    until [process_movies] stores the mapping that [classify_movies]
    returned. *)

(** [genres_with_movies]: the keys, in the order of
    [DEFAULT_GENRES + ['Unknown']], whose bucket is not empty. *)
Definition genres_with_movies (classified_movies : option buckets)
  : list string :=
  List.filter
    (fun genre =>
       match classified_movies with
       | Some classified =>
           negb (bool_decide (classified = ∅))
           && (0 <? length (default [] (classified !! genre)))%nat
       | None => false
       end)
    (DEFAULT_GENRES ++ ["Unknown"]).

(** ** Counting genres *)

(** The genres of all records, in order. *)
Definition all_genres (records : list pyval) : list string :=
  flat_map genre_tags records.

(** How often [g] occurs in a list of genres. *)
Definition occurrences (g : string) (gs : list string) : nat :=
  length (filter (fun x => x = g) gs).

(** The entry of [genre_counts] for a genre counted [n] times. *)
Definition tally (n : nat) : option pyval :=
  match n with
  | O => None
  | S _ => Some (PInt (Z.of_nat n))
  end.

(** The fields of [the_matrix]. *)
Definition matrix_payload : pydict :=
  [ ("Response", PStr "True"); ("Title", PStr "The Matrix");
    ("Genre", PStr "Action, Sci-Fi"); ("Year", PStr "1999");
    ("Plot", PStr "..."); ("imdbRating", PStr "8.7") ].

(** The title ["\ud800"]: one lone surrogate. *)
Definition lone_surrogate : string :=
  String (ascii_of_nat 237)
    (String (ascii_of_nat 160) (String (ascii_of_nat 128) "")).

(** A match with two genres of the provider that the taxonomy does not
    have. *)
Definition biography_sport : pyval :=
  PDict [ ("Response", PStr "True"); ("Title", PStr "Ali");
          ("Genre", PStr "Biography, Sport"); ("Year", PStr "2001") ].

Definition ali_record : pyval :=
  PDict [ ("omdb", biography_sport); ("title", PStr "Ali");
          ("genres", PList [PStr "Biography"; PStr "Sport"]);
          ("year", PStr "2001"); ("overview", PStr "");
          ("rating", PNone); ("source", PStr "OMDb") ].

(** A match that names the same genre twice. *)
Definition drama_drama : pyval :=
  PDict [ ("Response", PStr "True"); ("Title", PStr "Twice");
          ("Genre", PStr "Drama, Drama"); ("Year", PStr "2001") ].

Definition twice_record : pyval :=
  PDict [ ("omdb", drama_drama); ("title", PStr "Twice");
          ("genres", PList [PStr "Drama"; PStr "Drama"]);
          ("year", PStr "2001"); ("overview", PStr "");
          ("rating", PNone); ("source", PStr "OMDb") ].

(** A payload with a wrong [Year], after a good one. *)
Definition null_year : pyval :=
  PDict [("Response", PStr "True"); ("Title", PStr "Odd"); ("Year", PNone)].

(** The world after ["The Matrix"] was cached, with the service down. *)
Definition matrix_offline : world :=
  {| files :=
       {[ "cache/the matrix.json" := Holds (PDict [("omdb", the_matrix)]) ]};
     service := [NoResponse]; disk := [DumpFails]; sent := []; shown := [] |}.

(** * Properties *)

(** ** The [str] methods, run *)

Example split_genres :
  split ", " "Action, Sci-Fi" = ["Action"; "Sci-Fi"].
Proof. reflexivity. Qed.

Example split_trailing : split ", " "a, " = ["a"; ""].
Proof. reflexivity. Qed.

Example replace_dash : replace "–" "" "2019–" = "2019".
Proof. reflexivity. Qed.

Example join_genres : join ", " ["Action"; "Sci-Fi"] = "Action, Sci-Fi".
Proof. reflexivity. Qed.

(** ** Shape of the records that [get_movie_data] builds *)

Lemma split_from_cons sep s skip :
  exists piece pieces, split_from sep s skip = piece :: pieces.
Proof.
  revert skip. induction s as [|c s IH]; intros skip; [by repeat eexists|].
  cbn [split_from]. destruct skip as [|k]; [|by apply IH].
  destruct (String.prefix sep (String c s)); [by repeat eexists|].
  destruct (IH 0) as (p & ps & ->). by repeat eexists.
Qed.

Lemma split_cons sep s : exists piece pieces, split sep s = piece :: pieces.
Proof. apply split_from_cons. Qed.

Lemma genres_step payload v :
  (if truthy (get_or payload "Genre" PNone)
   then g <~ Returns (get_or payload "Genre" (PStr "")) ;; method_split g ", "
   else Returns (PList [])) = Returns v ->
  v = PList (PStr <$> genres_of payload).
Proof.
  unfold genres_of, get_or.
  destruct (dict_get payload "Genre") as [g|]; [|by intros [= <-]].
  destruct g as [| b | z | f | s | l | d]; cbn.
  - by intros [= <-].
  - by destruct b; [|intros [= <-]].
  - by destruct (z =? 0)%Z; [intros [= <-]|].
  - by destruct (PrimFloat.eqb f 0); [intros [= <-]|].
  - by destruct (String.eqb s ""); cbn; intros [= <-].
  - by destruct l; [intros [= <-]|].
  - by destruct d; [intros [= <-]|].
Qed.

Lemma found_record_inv omdb_data movie_title d :
  found_record omdb_data movie_title = Returns d ->
  exists payload,
    omdb_data = PDict payload /\
    d = [ ("omdb", omdb_data);
          ("title", get_or payload "Title" (PStr movie_title));
          ("genres", PList (PStr <$> genres_of payload));
          ("year", PStr (year_of payload));
          ("overview", get_or payload "Plot" (PStr ""));
          ("rating", get_or payload "imdbRating" PNone);
          ("source", PStr "OMDb") ].
Proof.
  destruct omdb_data as [| | | | |l|payload]; try discriminate.
  intros H. exists payload. split; [done|].
  revert H. unfold found_record, method_get. cbn [and_then].
  match goal with
  | |- and_then ?c _ = _ -> _ => destruct c as [genres|] eqn:Hg; [|done]
  end.
  apply genres_step in Hg as ->. cbn [and_then]. unfold year_of.
  destruct (get_or payload "Year" (PStr "Unknown")) as [| | | |s| |];
    try discriminate.
  cbn [method_replace method_split and_then].
  destruct (split_cons "–" (replace "–" "" s)) as (p & ps & ->).
  cbn. by intros [= <-].
Qed.

Lemma get_movie_data_inv lower md5_hexdigest self movie_title w r w' :
  get_movie_data lower md5_hexdigest self movie_title w = (Returns r, w') ->
  r = PDict (not_found_record movie_title) \/
  exists omdb_data d,
    truthy omdb_data = true /\
    found_record omdb_data movie_title = Returns d /\
    r = PDict d.
Proof.
  unfold get_movie_data, bind, lift, ret.
  destruct (search_movie_omdb _ _ _ _ w) as [[omdb_data|e] w1]; [|discriminate].
  destruct (truthy omdb_data) eqn:Ht.
  - destruct (found_record omdb_data movie_title) as [d|e] eqn:Hf; [|discriminate].
    destruct (found_record_inv _ _ _ Hf) as (payload & -> & Hd).
    destruct d as [|kv d]; [discriminate Hd|].
    cbn. intros [= <- <-]. right. by eauto.
  - cbn. intros [= <- <-]. by left.
Qed.

Lemma found_record_eq payload movie_title :
  well_typed (PDict payload) = true ->
  found_record (PDict payload) movie_title =
  Returns [ ("omdb", PDict payload);
            ("title", get_or payload "Title" (PStr movie_title));
            ("genres", PList (PStr <$> genres_of payload));
            ("year", PStr (year_of payload));
            ("overview", get_or payload "Plot" (PStr ""));
            ("rating", get_or payload "imdbRating" PNone);
            ("source", PStr "OMDb") ].
Proof.
  intros [Hg Hy]%andb_prop.
  destruct (found_record (PDict payload) movie_title) as [d|e] eqn:Hf.
  { destruct (found_record_inv _ _ _ Hf) as (p & [= <-] & ->). done. }
  exfalso. revert Hf. unfold found_record, method_get, get_or.
  cbn [and_then].
  destruct (dict_get payload "Year") as [[]|]; try discriminate Hy;
    cbn [method_replace method_split and_then];
    match goal with
    | |- context [split "–" ?x] =>
        destruct (split_cons "–" x) as (p & ps & ->)
    end;
    cbn [first_item and_then];
    (destruct (dict_get payload "Genre") as [[]|]; cbn in Hg |- *;
     try rewrite (proj1 (negb_true_iff _) Hg); cbn;
     try discriminate;
     try (destruct (negb _); discriminate)).
Qed.

Lemma truthy_well_typed omdb_data :
  well_typed omdb_data = true -> truthy omdb_data = true ->
  exists payload, omdb_data = PDict payload.
Proof.
  destruct omdb_data; cbn [well_typed]; eauto;
    intros H1 H2; rewrite H2 in H1; discriminate.
Qed.

(** ** [search_movie_omdb], case by case *)

Section lookup.

Variable lower : string -> string.
Variable md5_hexdigest : string -> string.
Variable self : MovieAPIHandler.

Abbreviation cache_path := (_get_cache_path lower md5_hexdigest self).
Abbreviation path := (cache_file lower md5_hexdigest self).
Abbreviation load := (_load_from_cache lower md5_hexdigest self).
Abbreviation save := (_save_to_cache lower md5_hexdigest self).
Abbreviation search := (search_movie_omdb lower md5_hexdigest self).
Abbreviation fetch := (get_movie_data lower md5_hexdigest self).
Abbreviation in_cache := (cached lower md5_hexdigest self).
Abbreviation miss := (cache_miss lower md5_hexdigest self).
Abbreviation request := (request_omdb lower md5_hexdigest self).

(** *** The cache path and the two cache functions *)

Lemma cache_path_encodable movie_title :
  encodable lower movie_title ->
  cache_path movie_title = Returns (path movie_title).
Proof.
  unfold encodable, _get_cache_path, encode, cache_file. by intros ->.
Qed.

Lemma cache_path_surrogate movie_title :
  has_surrogate (lower movie_title) = true ->
  cache_path movie_title = Raises UnicodeEncodeError.
Proof. unfold _get_cache_path, encode. by intros ->. Qed.

Lemma cache_path_inv movie_title p :
  cache_path movie_title = Returns p ->
  encodable lower movie_title /\ p = path movie_title.
Proof.
  unfold encodable, _get_cache_path, encode, cache_file.
  destruct (has_surrogate (lower movie_title)); [done|].
  by intros [= <-].
Qed.

Lemma load_encodable movie_title w :
  encodable lower movie_title ->
  load movie_title w = (Returns (in_cache movie_title w), w).
Proof.
  intros He. unfold _load_from_cache, bind, lift, cached.
  rewrite (cache_path_encodable _ He).
  by destruct (files w !! path movie_title) as [[|v]|].
Qed.

Lemma load_surrogate movie_title w :
  has_surrogate (lower movie_title) = true ->
  load movie_title w = (Raises UnicodeEncodeError, w).
Proof.
  intros He. unfold _load_from_cache, bind, lift.
  by rewrite (cache_path_surrogate _ He).
Qed.

Lemma load_inv movie_title w cached_data w' :
  load movie_title w = (Returns cached_data, w') ->
  encodable lower movie_title /\
  cached_data = in_cache movie_title w /\ w' = w.
Proof.
  destruct (has_surrogate (lower movie_title)) eqn:He.
  - by rewrite (load_surrogate _ _ He).
  - rewrite (load_encodable _ _ He). by intros [= <- <-].
Qed.

Lemma save_encodable movie_title data w :
  encodable lower movie_title ->
  save movie_title data w
  = (Returns tt,
     write_done
       match disk w with
       | [] | Written :: _ => <[path movie_title := Holds data]> (files w)
       | DumpFails :: _ => <[path movie_title := Unreadable]> (files w)
       | OpenFails :: _ => files w
       end w).
Proof.
  intros He. unfold _save_to_cache, bind, lift.
  rewrite (cache_path_encodable _ He). by destruct (disk w) as [|[] ?].
Qed.

Lemma save_surrogate movie_title data w :
  has_surrogate (lower movie_title) = true ->
  save movie_title data w = (Raises UnicodeEncodeError, w).
Proof.
  intros He. unfold _save_to_cache, bind, lift.
  by rewrite (cache_path_surrogate _ He).
Qed.

(** *** The search *)

Lemma search_unusable movie_title w :
  omdb_api_key self = "" \/ omdb_api_key self = "4bcd5aba" ->
  search movie_title w = (Returns PNone, w).
Proof.
  unfold search_movie_omdb. by intros [-> | ->].
Qed.

Lemma usable_test :
  usable self ->
  negb (truthy (PStr (omdb_api_key self)))
  || String.eqb (omdb_api_key self) "4bcd5aba" = false.
Proof.
  intros [H1 H2]. apply orb_false_iff. split.
  - cbn. apply negb_false_iff, negb_true_iff. by apply String.eqb_neq.
  - by apply String.eqb_neq.
Qed.

(** With a usable credential, a title that cannot be encoded makes the
    search raise before anything else happens. *)
Lemma search_surrogate movie_title w :
  usable self -> has_surrogate (lower movie_title) = true ->
  search movie_title w = (Raises UnicodeEncodeError, w).
Proof.
  intros Hu He. unfold search_movie_omdb. rewrite (usable_test Hu).
  unfold bind at 1. by rewrite (load_surrogate _ _ He).
Qed.

Lemma search_usable movie_title w :
  usable self -> encodable lower movie_title ->
  search movie_title w =
  match (if truthy (in_cache movie_title w)
         then contains (in_cache movie_title w) "omdb"
         else Returns false) with
  | Returns true => (subscript (in_cache movie_title w) "omdb", w)
  | Returns false => request movie_title w
  | Raises e => (Raises e, w)
  end.
Proof.
  intros Hu He. unfold search_movie_omdb. rewrite (usable_test Hu).
  unfold bind at 1. rewrite (load_encodable _ _ He).
  unfold bind, lift.
  by destruct (if truthy _ then _ else _) as [[]|].
Qed.

Lemma search_miss movie_title w :
  usable self -> encodable lower movie_title -> miss movie_title w ->
  search movie_title w = request movie_title w.
Proof.
  intros Hu He Hm. rewrite (search_usable _ _ Hu He).
  destruct Hm as [-> | Hm]; [done|].
  rewrite Hm. by destruct (truthy _).
Qed.

Lemma request_omdb_no_match movie_title w :
  match service w with
  | r :: _ => no_match r = true
  | [] => True
  end ->
  request movie_title w = (Returns PNone, request_sent movie_title w).
Proof.
  unfold request_omdb, try_except, bind, requests_get, lift, ret.
  destruct (service w) as [|[|status body] rest]; [done..|].
  cbn [no_match]. unfold raise_for_status. cbn [fst snd].
  destruct ((400 <=? status) && (status <? 600))%nat; [done|].
  cbn [orb and_then]. unfold response_json. cbn [snd].
  destruct body as [[| | | | | |payload]|]; try done.
  cbn [method_get]. intros ->%negb_true_iff. done.
Qed.

Lemma request_omdb_match movie_title w status payload rest :
  encodable lower movie_title ->
  service w = Response status (Some (PDict payload)) :: rest ->
  ((400 <=? status) && (status <? 600))%nat = false ->
  eq_str (get_or payload "Response" PNone) "True" = true ->
  request movie_title w =
  (Returns (PDict payload),
   (save movie_title (PDict [("omdb", PDict payload)])
      (request_sent movie_title w)).2).
Proof.
  intros He Hs Hst Hr. rewrite (save_encodable _ _ _ He).
  unfold request_omdb, try_except, bind, requests_get, lift, ret.
  rewrite Hs. unfold raise_for_status. cbn [fst snd]. rewrite Hst.
  cbn [response_json snd method_get]. rewrite Hr.
  by rewrite (save_encodable _ _ _ He).
Qed.

Lemma calm_request_sent movie_title w :
  calm w -> calm (request_sent movie_title w).
Proof.
  intros [Hf Hs]. split; [done|]. cbn.
  destruct (service w); [done|]. by inversion Hs.
Qed.

Lemma calm_save movie_title payload w :
  calm w -> well_typed (PDict payload) = true ->
  calm (save movie_title (PDict [("omdb", PDict payload)]) w).2.
Proof.
  intros [Hf Hs] Hp.
  destruct (has_surrogate (lower movie_title)) eqn:He.
  { by rewrite (save_surrogate _ _ _ He). }
  rewrite (save_encodable _ _ _ He).
  destruct (disk w) as [|[] ?]; split; cbn [snd write_done files service];
    try done; by apply map_Forall_insert_2.
Qed.

Lemma request_omdb_calm movie_title w :
  calm w -> encodable lower movie_title ->
  exists v w',
    request movie_title w = (Returns v, w') /\
    well_typed v = true /\ calm w'.
Proof.
  intros Hc He.
  destruct (service w) as [|r rest] eqn:Hs.
  { exists PNone, (request_sent movie_title w). split_and!; [|done|].
    - apply request_omdb_no_match. by rewrite Hs.
    - by apply calm_request_sent. }
  destruct (no_match r) eqn:Hn.
  { exists PNone, (request_sent movie_title w). split_and!; [|done|].
    - apply request_omdb_no_match. by rewrite Hs.
    - by apply calm_request_sent. }
  destruct r as [|status body]; [discriminate Hn|].
  cbn [no_match] in Hn. apply orb_false_iff in Hn as [Hst Hr].
  destruct body as [[| | | | | |payload]|]; try discriminate Hr.
  apply negb_false_iff in Hr.
  assert (Hp : well_typed (PDict payload) = true).
  { destruct Hc as [_ Hc]. rewrite Hs in Hc. inversion Hc as [|?? Hok _].
    cbn [reply_ok] in Hok. by rewrite Hr in Hok. }
  eexists _, _. split_and!.
  - by eapply request_omdb_match.
  - done.
  - by apply calm_save; [apply calm_request_sent|].
Qed.

Lemma cached_ok movie_title w :
  calm w -> entry_ok (in_cache movie_title w) = true.
Proof.
  intros [Hf _]. unfold cached.
  destruct (files w !! path movie_title) as [[|v]|] eqn:Hl; [done| |done].
  by apply (Hf _ _ Hl).
Qed.

Lemma search_calm movie_title w :
  calm w -> encodable lower movie_title ->
  exists v w',
    search movie_title w = (Returns v, w') /\
    well_typed v = true /\ calm w'.
Proof.
  intros Hc He.
  destruct (decide (omdb_api_key self = "")) as [Hk|Hk].
  { exists PNone, w. by rewrite search_unusable; [|left]. }
  destruct (decide (omdb_api_key self = "4bcd5aba")) as [Hp|Hp].
  { exists PNone, w. by rewrite search_unusable; [|right]. }
  rewrite search_usable by done.
  pose proof (cached_ok movie_title w Hc) as Hok.
  destruct (truthy (in_cache movie_title w)) eqn:Ht;
    [|by apply request_omdb_calm].
  destruct (in_cache movie_title w) as [| | | | | |entry];
    cbn [entry_ok] in Hok; try (rewrite Ht in Hok; discriminate Hok).
  cbn [contains subscript].
  destruct (dict_get entry "omdb") as [omdb_data|].
  - rewrite bool_decide_eq_true_2 by eauto. by exists omdb_data, w.
  - rewrite bool_decide_eq_false_2 by (by intros [? ?]).
    by apply request_omdb_calm.
Qed.

(** In a calm world the lookup of a title that can be encoded returns, and
    leaves the world calm. *)
Lemma get_movie_data_calm movie_title w :
  calm w -> encodable lower movie_title ->
  exists r w', fetch movie_title w = (Returns r, w') /\ calm w'.
Proof.
  intros Hc He.
  destruct (search_calm movie_title w Hc He) as (v & w' & Hs & Hv & Hc').
  unfold get_movie_data, bind, lift, ret. rewrite Hs.
  destruct (truthy v) eqn:Ht; [|by eauto].
  destruct (truthy_well_typed _ Hv Ht) as [payload ->].
  rewrite (found_record_eq _ _ Hv). by eauto.
Qed.

End lookup.

(** ** Filing a record under its genres *)

Lemma str_items_fmap gs : str_items (PStr <$> gs) = gs.
Proof.
  induction gs as [|g gs IH]; [done|].
  unfold str_items in *. rewrite fmap_cons. cbn [omap list_omap]. by rewrite IH.
Qed.

Lemma plain_tags r :
  plain r ->
  exists d, r = PDict d /\
    dict_get d "genres" = Some (PList (PStr <$> genre_tags r)).
Proof.
  intros (d & gs & -> & Hg). exists d. split; [done|].
  unfold genre_tags. rewrite Hg. by rewrite str_items_fmap.
Qed.

Lemma bucket_keys_inv k :
  k ∈ bucket_keys <-> k ∈ DEFAULT_GENRES \/ k = "Unknown".
Proof. unfold bucket_keys. by rewrite elem_of_app, list_elem_of_singleton. Qed.

Lemma unknown_is_key : "Unknown" ∈ bucket_keys.
Proof. apply bucket_keys_inv. by right. Qed.

Lemma empty_buckets_lookup k :
  empty_buckets !! k = if bool_decide (k ∈ bucket_keys) then Some [] else None.
Proof.
  unfold empty_buckets.
  destruct (decide (k = "Unknown")) as [->|Hne].
  { rewrite lookup_insert_eq.
    by rewrite (bool_decide_eq_true_2 _ unknown_is_key). }
  rewrite lookup_insert_ne by done.
  case_bool_decide as Hk.
  - apply elem_of_list_to_map_1.
    + by apply (bool_decide_unpack _); vm_compute.
    + apply list_elem_of_fmap. exists k. split; [done|].
      by apply bucket_keys_inv in Hk as [Hk|Hk].
  - apply not_elem_of_list_to_map_1. intros Hin. apply Hk.
    apply list_elem_of_fmap in Hin as ([k' l] & -> & Hin).
    apply list_elem_of_fmap in Hin as (g & [= -> ->] & Hin).
    apply bucket_keys_inv. by left.
Qed.

Lemma empty_buckets_keyed : keyed empty_buckets.
Proof.
  intros k. rewrite empty_buckets_lookup.
  case_bool_decide; split; intros H'; try done; by destruct H'.
Qed.

Lemma append_to_spec b key r :
  keyed b -> key ∈ bucket_keys ->
  exists b',
    append_to b key r = Returns b' /\ keyed b' /\
    forall k l, b !! k = Some l ->
      b' !! k = Some (l ++ if bool_decide (key = k) then [r] else []).
Proof.
  intros Hb Hkey. unfold append_to.
  destruct (proj2 (Hb key) Hkey) as [l0 Hl0]. rewrite Hl0.
  eexists. split_and!; [done|..].
  - intros k. rewrite <-(Hb k), lookup_insert_is_Some.
    split; [intros [<-|[_ ?]]; eauto|]. intros ?.
    destruct (decide (key = k)); eauto.
  - intros k l Hl. case_bool_decide as Hk.
    + subst k. rewrite lookup_insert_eq. congruence.
    + rewrite lookup_insert_ne by done. by rewrite app_nil_r.
Qed.

Lemma lands_is_key g : lands g ∈ bucket_keys.
Proof. unfold lands. case_bool_decide; [done|apply unknown_is_key]. Qed.

Lemma fan_out_cons k g gs :
  fan_out k (g :: gs) = (if bool_decide (lands g = k) then 1 else 0) + fan_out k gs.
Proof.
  unfold fan_out, lands. rewrite !filter_cons.
  pose proof unknown_is_key as Hu.
  repeat (case_decide || case_bool_decide); simplify_eq; cbn [length];
    try lia; exfalso; naive_solver.
Qed.

Lemma file_under_each_spec gs r b :
  keyed b ->
  exists b',
    file_under_each (PStr <$> gs) r b = Returns b' /\ keyed b' /\
    forall k l, b !! k = Some l ->
      b' !! k = Some (l ++ replicate (fan_out k gs) r).
Proof.
  revert b. induction gs as [|g gs IH]; intros b Hb.
  { exists b. split_and!; [done..|]. intros k l ->. cbn.
    unfold fan_out. cbn. case_bool_decide; cbn; by rewrite app_nil_r. }
  cbn [fmap list_fmap file_under_each file_under].
  destruct (append_to_spec b (lands g) r Hb (lands_is_key g))
    as (b1 & Happ & Hb1 & Hl1).
  assert (Hstep :
    (if bool_decide (is_Some (b !! g)) then append_to b g r
     else append_to b "Unknown" r) = Returns b1).
  { rewrite <-Happ. unfold lands.
    rewrite (bool_decide_ext _ _ (Hb g)). by case_bool_decide. }
  rewrite Hstep. cbn [and_then].
  destruct (IH b1 Hb1) as (b' & Hrun & Hb' & Hl').
  exists b'. split_and!; [done..|].
  intros k l Hl. rewrite (Hl' _ _ (Hl1 _ _ Hl)). f_equal.
  rewrite fan_out_cons, <-app_assoc. f_equal.
  by destruct (bool_decide (lands g = k)).
Qed.

Lemma add_to_categories_spec r b :
  keyed b -> plain r ->
  exists b',
    add_to_categories r b = Returns b' /\ keyed b' /\
    forall k l, b !! k = Some l ->
      b' !! k = Some (l ++ replicate (appearances k (genre_tags r)) r).
Proof.
  intros Hb Hr. destruct (plain_tags r Hr) as (d & -> & Hg).
  unfold add_to_categories, method_get, get_or. rewrite Hg. cbn [and_then].
  destruct (genre_tags (PDict d)) as [|g gs] eqn:Ht.
  - cbn [fmap list_fmap truthy negb].
    destruct (append_to_spec b "Unknown" (PDict d) Hb unknown_is_key)
      as (b' & -> & Hb' & Hl).
    exists b'. split_and!; [done..|]. intros k l Hk. rewrite (Hl _ _ Hk).
    cbn [appearances]. f_equal. f_equal.
    rewrite (bool_decide_ext ("Unknown" = k) (k = "Unknown")) by done.
    by case_bool_decide.
  - cbn [truthy fmap list_fmap negb iterate and_then].
    apply (file_under_each_spec (g :: gs) (PDict d) b Hb).
Qed.

(** ** The classification loop *)

Section run.

Variable lower : string -> string.
Variable md5_hexdigest : string -> string.
Variable strip : string -> string.
Variable handler : MovieAPIHandler.
Variable progress_callback : bool.
Variable total_movies : nat.

Abbreviation fetch := (get_movie_data lower md5_hexdigest handler).
Abbreviation serving :=
  (served lower md5_hexdigest strip handler progress_callback total_movies).

Lemma served_length i titles w records w' :
  serving i titles w records w' -> length records = length titles.
Proof. induction 1; cbn; congruence. Qed.

Lemma served_lookup i titles w records w' n title :
  serving i titles w records w' ->
  titles !! n = Some title ->
  exists r wa wb,
    records !! n = Some r /\ fetch (strip title) wa = (Returns r, wb).
Proof.
  intros Hs. revert n. induction Hs as [|i t rest w r w1 records w2 Hf Hs IH];
    intros n Hn; [done|].
  destruct n as [|n]; [|by apply IH].
  injection Hn as ->. by eauto.
Qed.

Lemma served_Forall (P : pyval -> Prop) i titles w records w' :
  (forall t wa wb r, fetch t wa = (Returns r, wb) -> P r) ->
  serving i titles w records w' -> Forall P records.
Proof. intros HP. induction 1; constructor; eauto. Qed.

Lemma fetch_plain t w r w' : fetch t w = (Returns r, w') -> plain r.
Proof.
  intros [->|(omdb & d & _ & Hf & ->)]%get_movie_data_inv.
  - by exists (not_found_record t), ["Unknown"].
  - apply found_record_inv in Hf as (payload & -> & ->).
    by eexists _, (genres_of payload).
Qed.

Lemma calm_report current w :
  calm w -> calm (report progress_callback current total_movies w).
Proof. unfold report. by destruct progress_callback. Qed.

(** A loop that returns has appended the records served for its titles to
    [processed_movies], and extended every bucket by the appearances of
    each of them. *)
Lemma classify_loop_returns titles i b processed w b' processed' w' :
  keyed b ->
  classify_loop lower md5_hexdigest strip handler progress_callback
    total_movies titles i b processed w
    = (Returns b', processed', w') ->
  exists records,
    processed' = processed ++ records /\ keyed b' /\
    serving i titles w records w' /\
    forall k l, b !! k = Some l ->
      b' !! k =
      Some (l ++ flat_map
                   (fun r => replicate (appearances k (genre_tags r)) r)
                   records).
Proof.
  revert i b processed w.
  induction titles as [|title rest IH]; intros i b processed w Hb.
  { cbn. intros [= <- <- <-]. exists []. rewrite app_nil_r.
    split_and!; try done; [constructor|].
    intros k l ->. by rewrite app_nil_r. }
  cbn [classify_loop].
  destruct (fetch (strip title) _) as [[r|e] w1] eqn:Hf; [|done].
  destruct (add_to_categories_spec r b Hb (fetch_plain _ _ _ _ Hf))
    as (b1 & -> & Hb1 & Hl1).
  intros (records & -> & Hb' & Hs & Hl')%(IH _ _ _ _ Hb1).
  exists (r :: records). rewrite <-app_assoc.
  split_and!; try done; [by econstructor|].
  intros k l Hl. rewrite (Hl' _ _ (Hl1 _ _ Hl)), <-app_assoc. done.
Qed.

(** In a calm world, over titles that can be encoded, the loop runs to its
    end. *)
Lemma classify_loop_spec titles i b processed w :
  calm w -> encodable_titles lower strip titles -> keyed b ->
  exists b' records w',
    classify_loop lower md5_hexdigest strip handler progress_callback
      total_movies titles i b processed w
      = (Returns b', processed ++ records, w') /\
    calm w' /\ keyed b' /\
    serving i titles w records w' /\
    forall k l, b !! k = Some l ->
      b' !! k =
      Some (l ++ flat_map
                   (fun r => replicate (appearances k (genre_tags r)) r)
                   records).
Proof.
  revert i b processed w.
  induction titles as [|title rest IH]; intros i b processed w Hc He Hb.
  { exists b, [], w. rewrite !app_nil_r. split_and!; try done; [constructor|].
    intros k l ->. by rewrite app_nil_r. }
  apply Forall_cons in He as [He Hrest].
  cbn [classify_loop].
  destruct (get_movie_data_calm lower md5_hexdigest handler (strip title)
              _ (calm_report (i + 1) w Hc) He) as (r & w1 & Hf & Hc1).
  rewrite Hf.
  destruct (add_to_categories_spec r b Hb (fetch_plain _ _ _ _ Hf))
    as (b1 & -> & Hb1 & Hl1).
  destruct (IH (S i) b1 (processed ++ [r]) w1 Hc1 Hrest Hb1)
    as (b' & records & w' & -> & Hc' & Hb' & Hs & Hl').
  exists b', (r :: records), w'. rewrite <-app_assoc.
  split_and!; try done; [by econstructor|].
  intros k l Hl. rewrite (Hl' _ _ (Hl1 _ _ Hl)), <-app_assoc. done.
Qed.

End run.

Example strip_title : ascii_strip "  The Matrix " = "The Matrix".
Proof. reflexivity. Qed.

Example lower_title : ascii_lower "The MATRIX" = "the matrix".
Proof. reflexivity. Qed.

Lemma fresh_calm replies :
  forallb reply_ok replies = true -> calm (fresh replies).
Proof.
  intros H. split; [apply map_Forall_empty|].
  apply Forall_forall. intros r Hr.
  rewrite forallb_forall in H. apply H. by apply list_elem_of_In.
Qed.

(** ** C1: one record per title, in order *)

Lemma a_handler_usable : usable a_handler.
Proof. by split. Qed.

(** C1 fails on the code.  [classify_movies] has no handler around the
    lookup, and the lookup can raise.  With a usable credential and a
    service that answers every request with a well-formed match, the titles
    [["The Matrix"; "\ud800"; "Heat"]] make [classify_movies] raise
    [UnicodeEncodeError] at the second title, whose lowercase form cannot be
    encoded for the cache path: the call does not return, and
    [processed_movies] holds one record for three titles.  The same happens
    with [AttributeError] when the service answers the second of three
    titles with a match whose [Year] is [null]; the third title is never
    looked up.  The single title [["\ud800"]] makes the call raise before
    any request, with no record at all. *)
Theorem classify_movies_aborts_when_a_lookup_raises :
  let titles := ["The Matrix"; lone_surrogate; "Heat"] in
  let replies :=
    [Response 200 (Some the_matrix); Response 200 (Some the_matrix)] in
  let run :=
    classify_movies ascii_lower readable_digest ascii_strip a_classifier
      titles false (fresh replies) in
  let odd :=
    classify_movies ascii_lower readable_digest ascii_strip a_classifier
      ["The Matrix"; "Odd"; "Later"] false
      (fresh [Response 200 (Some the_matrix); Response 200 (Some null_year);
              Response 200 (Some the_matrix)]) in
  let alone :=
    classify_movies ascii_lower readable_digest ascii_strip a_classifier
      [lone_surrogate] false (fresh []) in
  usable (api_handler a_classifier) /\
  forallb reply_ok replies = true /\
  run.1.1 = Raises UnicodeEncodeError /\
  processed_movies run.1.2 = [matrix_record] /\
  length (processed_movies run.1.2) <> length titles /\
  sent run.2 = ["The Matrix"] /\
  odd.1.1 = Raises AttributeError /\
  processed_movies odd.1.2 = [matrix_record] /\
  length (processed_movies odd.1.2) <> 3 /\
  sent odd.2 = ["The Matrix"; "Odd"] /\
  alone.1.1 = Raises UnicodeEncodeError /\
  processed_movies alone.1.2 = [] /\
  sent alone.2 = [].
Proof.
  cbv zeta. split_and!; try (vm_compute; reflexivity).
  - exact a_handler_usable.
  - vm_compute. discriminate.
  - vm_compute. discriminate.
Qed.

(** X17.  For every list of titles that can be encoded, in every world
    whose cached and served payloads have the provider's shape,
    [classify_movies] returns, and its [processed_movies] then holds exactly
    one record per input title, in input order: the record at position [i]
    is the one [get_movie_data] returned for the stripped title at position
    [i]. *)
Theorem classify_movies_one_record_per_title
    (lower md5_hexdigest strip : string -> string)
    (self : MovieGenreClassifier) (movie_titles : list string)
    (progress_callback : bool) (w : world) :
  calm w ->
  encodable_titles lower strip movie_titles ->
  exists classified self' w',
    classify_movies lower md5_hexdigest strip self movie_titles
      progress_callback w = (Returns classified, self', w') /\
    length (processed_movies self') = length movie_titles /\
    served lower md5_hexdigest strip (api_handler self) progress_callback
      (length movie_titles) 0 movie_titles w (processed_movies self') w' /\
    forall i title, movie_titles !! i = Some title ->
      exists r wa wb,
        processed_movies self' !! i = Some r /\
        get_movie_data lower md5_hexdigest (api_handler self) (strip title) wa
          = (Returns r, wb).
Proof.
  intros Hc He. unfold classify_movies.
  destruct (classify_loop_spec lower md5_hexdigest strip (api_handler self)
              progress_callback (length movie_titles) movie_titles 0
              empty_buckets [] w Hc He empty_buckets_keyed)
    as (b' & records & w' & -> & _ & _ & Hs & _).
  eexists _, _, _. split; [done|]. cbn [processed_movies app].
  split_and!; [by eapply served_length|done|].
  intros i title Hi. by eapply served_lookup.
Qed.

Lemma classify_movies_one_record_per_title_witness :
  calm (fresh [Response 200 (Some the_matrix); Response 200 (Some no_such_movie)]) /\
  encodable_titles ascii_lower ascii_strip
    [" The Matrix"; "Nonexistent Movie XYZ"] /\
  exists classified self' w',
    classify_movies ascii_lower readable_digest ascii_strip a_classifier
      [" The Matrix"; "Nonexistent Movie XYZ"] true
      (fresh [Response 200 (Some the_matrix); Response 200 (Some no_such_movie)])
      = (Returns classified, self', w') /\
    length (processed_movies self') = 2 /\
    served ascii_lower readable_digest ascii_strip (api_handler a_classifier)
      true 2 0 [" The Matrix"; "Nonexistent Movie XYZ"]
      (fresh [Response 200 (Some the_matrix); Response 200 (Some no_such_movie)])
      (processed_movies self') w' /\
    forall i title,
      [" The Matrix"; "Nonexistent Movie XYZ"] !! i = Some title ->
      exists r wa wb,
        processed_movies self' !! i = Some r /\
        get_movie_data ascii_lower readable_digest (api_handler a_classifier)
          (ascii_strip title) wa = (Returns r, wb).
Proof.
  split; [by apply fresh_calm|]. split; [by repeat constructor|].
  apply (classify_movies_one_record_per_title ascii_lower readable_digest
           ascii_strip a_classifier [" The Matrix"; "Nonexistent Movie XYZ"]).
  - by apply fresh_calm.
  - by repeat constructor.
Defined.

(** ** C5, C7: the default record *)

(** C5.  A record that [get_movie_data] returns with [source] equal to
    ["Not Found"] has [year] ["Unknown"], [rating] [None], [genres]
    [["Unknown"]] and the fixed overview. *)
Theorem not_found_record_fields
    (lower md5_hexdigest : string -> string) (self : MovieAPIHandler)
    (movie_title : string) (w w' : world) (d : pydict) :
  get_movie_data lower md5_hexdigest self movie_title w = (Returns (PDict d), w') ->
  eq_str (get_or d "source" PNone) "Not Found" = true ->
  dict_get d "year" = Some (PStr "Unknown") /\
  dict_get d "rating" = Some PNone /\
  dict_get d "genres" = Some (PList [PStr "Unknown"]) /\
  dict_get d "overview" = Some (PStr "No information available").
Proof.
  intros [[= ->]|(omdb & d' & _ & Hf & [= ->])]%get_movie_data_inv Hsrc;
    [done|].
  apply found_record_inv in Hf as (payload & -> & ->). discriminate Hsrc.
Qed.

Lemma not_found_record_fields_witness :
  get_movie_data ascii_lower readable_digest a_handler "Nonexistent Movie XYZ"
    (fresh [Response 200 (Some no_such_movie)])
  = (Returns (PDict (not_found_record "Nonexistent Movie XYZ")),
     request_sent "Nonexistent Movie XYZ" (fresh [Response 200 (Some no_such_movie)])) /\
  eq_str (get_or (not_found_record "Nonexistent Movie XYZ") "source" PNone)
    "Not Found" = true /\
  dict_get (not_found_record "Nonexistent Movie XYZ") "year"
    = Some (PStr "Unknown") /\
  dict_get (not_found_record "Nonexistent Movie XYZ") "rating" = Some PNone /\
  dict_get (not_found_record "Nonexistent Movie XYZ") "genres"
    = Some (PList [PStr "Unknown"]) /\
  dict_get (not_found_record "Nonexistent Movie XYZ") "overview"
    = Some (PStr "No information available").
Proof.
  split; [reflexivity|]. split; [reflexivity|].
  apply (not_found_record_fields ascii_lower readable_digest a_handler
           "Nonexistent Movie XYZ" (fresh [Response 200 (Some no_such_movie)])
           (request_sent "Nonexistent Movie XYZ"
              (fresh [Response 200 (Some no_such_movie)])));
    reflexivity.
Defined.

Lemma get_movie_data_unusable lower md5_hexdigest self movie_title w :
  omdb_api_key self = "" \/ omdb_api_key self = "4bcd5aba" ->
  get_movie_data lower md5_hexdigest self movie_title w
  = (Returns (PDict (not_found_record movie_title)), w).
Proof.
  intros Hk. unfold get_movie_data, bind.
  by rewrite (search_unusable lower md5_hexdigest self movie_title w Hk).
Qed.

Lemma classify_loop_unusable lower md5_hexdigest strip handler cb total
    titles i b processed w :
  omdb_api_key handler = "" \/ omdb_api_key handler = "4bcd5aba" ->
  keyed b ->
  exists b',
    classify_loop lower md5_hexdigest strip handler cb total titles i b
      processed w
    = (Returns b',
       processed ++ ((fun t => PDict (not_found_record (strip t))) <$> titles),
       {| files := files w; service := service w; disk := disk w;
          sent := sent w;
          shown := shown w ++
            if cb then (fun n => (n + 1, total)) <$> seq i (length titles)
            else [] |}).
Proof.
  intros Hk. revert i b processed w.
  induction titles as [|title rest IH]; intros i b processed w Hb.
  { exists b. cbn. rewrite !app_nil_r. destruct cb, w; by rewrite ?app_nil_r. }
  cbn [classify_loop]. rewrite get_movie_data_unusable by done.
  destruct (add_to_categories_spec (PDict (not_found_record (strip title))) b Hb)
    as (b1 & -> & Hb1 & _); [by eexists _, ["Unknown"]|].
  destruct (IH (S i) b1 (processed ++ [PDict (not_found_record (strip title))])
              (report cb (i + 1) total w) Hb1) as (b' & ->).
  exists b'. rewrite <-app_assoc. cbn [fmap list_fmap app]. f_equal.
  unfold report. destruct cb; cbn [files service disk sent shown length seq];
    [|done].
  by rewrite fmap_cons, <-app_assoc.
Qed.



(** ** C3, C4: genres and buckets *)

Lemma found_genres_empty payload movie_title d :
  found_record (PDict payload) movie_title = Returns d ->
  genres_of payload = [] <-> truthy (get_or payload "Genre" PNone) = false.
Proof.
  unfold found_record, method_get, genres_of, get_or. cbn [and_then].
  destruct (dict_get payload "Genre") as [g|]; [|done].
  destruct g as [| b | z | f | s | l | p]; cbn [truthy];
    try (destruct (negb _); [discriminate|done]).
  - done.
  - by destruct b.
  - destruct (String.eqb s ""); cbn [negb]; [done|].
    destruct (split_cons ", " s) as (x & xs & ->). done.
  - by destruct l.
  - by destruct p.
Qed.

Lemma sum_list_indicator (x : string) (l : list string) :
  NoDup l ->
  sum_list ((fun k => if bool_decide (x = k) then 1 else 0) <$> l)
  = if bool_decide (x ∈ l) then 1 else 0.
Proof.
  induction 1 as [|k l Hk Hl IH]; [done|].
  rewrite fmap_cons. cbn [sum_list sum_list_with]. 
  change (sum_list_with id ?l) with (sum_list l). rewrite IH.
  repeat case_bool_decide; simplify_eq; try done;
    exfalso; rewrite ?elem_of_cons in *; naive_solver.
Qed.

Lemma sum_list_plus {A} (f g : A -> nat) (l : list A) :
  sum_list ((fun k => f k + g k) <$> l)
  = sum_list (f <$> l) + sum_list (g <$> l).
Proof.
  induction l as [|x l IH]; [done|]. rewrite !fmap_cons. cbn. 
  change (sum_list_with id ?l) with (sum_list l) in *. lia.
Qed.

Lemma bucket_keys_NoDup : NoDup bucket_keys.
Proof. by apply (bool_decide_unpack _); vm_compute. Qed.

(** Over all buckets, a record with a non-empty genre list is filed once
    per genre. *)
Lemma fan_out_total gs :
  sum_list ((fun k => fan_out k gs) <$> bucket_keys) = length gs.
Proof.
  induction gs as [|g gs IH].
  { unfold fan_out. cbn [filter list_filter length].
    by apply (bool_decide_unpack _); vm_compute. }
  rewrite (list_fmap_ext _ (fun k => (if bool_decide (lands g = k) then 1 else 0)
                              + fan_out k gs) bucket_keys)
    by (intros; apply fan_out_cons).
  rewrite sum_list_plus, IH, (sum_list_indicator _ _ bucket_keys_NoDup).
  by rewrite (bool_decide_eq_true_2 _ (lands_is_key g)).
Qed.

Lemma get_movie_data_genres lower md5_hexdigest self movie_title w r w' :
  get_movie_data lower md5_hexdigest self movie_title w = (Returns r, w') ->
  genres_settled r.
Proof.
  intros [->|(omdb & d & _ & Hf & ->)]%get_movie_data_inv.
  - exists (not_found_record movie_title). split_and!; try done.
    split; [done|]. by intros (payload & [=] & _).
  - pose proof Hf as Hf'.
    apply found_record_inv in Hf' as (payload & -> & ->).
    eexists. split; [done|].
    unfold genre_tags.
    cbn [dict_get String.eqb Ascii.eqb Bool.eqb]. rewrite str_items_fmap.
    split_and!; [done|discriminate|].
    rewrite (found_genres_empty _ _ _ Hf). split.
    + intros Hg. by exists payload.
    + by intros (p & [= <-] & Hg).
Qed.

Lemma classified_lookup lower md5_hexdigest strip handler cb total titles w
    b' records w' :
  classify_loop lower md5_hexdigest strip handler cb total titles 0
    empty_buckets [] w = (Returns b', records, w') ->
  forall k,
    b' !! k =
    if bool_decide (k ∈ bucket_keys)
    then Some (flat_map (fun r => replicate (appearances k (genre_tags r)) r)
                 records)
    else None.
Proof.
  intros Hrun k.
  apply classify_loop_returns in Hrun as (rs & -> & Hb & _ & Hl);
    [|apply empty_buckets_keyed].
  cbn [app]. case_bool_decide as Hk.
  - apply (Hl k []). rewrite empty_buckets_lookup.
    by rewrite bool_decide_eq_true_2.
  - apply eq_None_not_Some. by rewrite (Hb k).
Qed.

(** The entries of a record under [k]: one for each of its genres that
    lands there. *)
Lemma fan_out_lands k gs :
  fan_out k gs = length (filter (fun g => lands g = k) gs).
Proof.
  induction gs as [|g gs IH]; [by unfold fan_out; case_bool_decide|].
  rewrite fan_out_cons, IH, filter_cons.
  by case_decide; case_bool_decide.
Qed.

(** C4, as stated, fails: a record with N genres need not appear in N
    buckets.  The two genres of the match ["Biography, Sport"] are no keys
    of the mapping, so the record is filed twice under ["Unknown"] and
    under no other key: one bucket for two genres.  The match
    ["Drama, Drama"] is filed twice under ["Drama"] and nowhere else. *)
Lemma two_genres_can_share_one_bucket :
  let run :=
    classify_movies ascii_lower readable_digest ascii_strip a_classifier
      ["Ali"] false (fresh [Response 200 (Some biography_sport)]) in
  let again :=
    classify_movies ascii_lower readable_digest ascii_strip a_classifier
      ["Twice"] false (fresh [Response 200 (Some drama_drama)]) in
  processed_movies run.1.2 = [ali_record] /\
  genre_tags ali_record = ["Biography"; "Sport"] /\
  bucket run.1.1 "Unknown" = Some [ali_record; ali_record] /\
  forallb (fun k => match bucket run.1.1 k with
                    | Some [] => true
                    | _ => false
                    end) DEFAULT_GENRES = true /\
  processed_movies again.1.2 = [twice_record] /\
  genre_tags twice_record = ["Drama"; "Drama"] /\
  bucket again.1.1 "Drama" = Some [twice_record; twice_record] /\
  bucket again.1.1 "Unknown" = Some [].
Proof. cbv zeta. split_and!; vm_compute; reflexivity. Qed.

(** C4, amended.  Whenever [classify_movies] returns, [processed_movies]
    holds one record per title, and each bucket holds, in processing order,
    every processed record as often as [appearances] says.  For a record
    with a non-empty genre list of length N that is one entry per genre:
    under the key [k] as many entries as the record has genres that land
    under [k], where a genre lands under itself when it is a key of the
    mapping and under ["Unknown"] when it is not; N entries over all
    buckets.  So a record with genres [["Drama"; "Bogus"]] is filed once
    under ["Drama"] and once under ["Unknown"], one with
    [["Biography"; "Sport"]] twice under ["Unknown"], and one with
    [["Drama"; "Drama"]] twice under ["Drama"].  (And [classify_movies]
    does return, over titles that can be encoded, in every world whose
    payloads have the provider's shape.) *)
Theorem record_filed_once_per_genre
    (lower md5_hexdigest strip : string -> string)
    (self : MovieGenreClassifier) (movie_titles : list string)
    (progress_callback : bool) (w : world) :
  (calm w ->
   encodable_titles lower strip movie_titles ->
   returned (classify_movies lower md5_hexdigest strip self movie_titles
               progress_callback w).1.1 = true) /\
  (forall classified self' w',
     classify_movies lower md5_hexdigest strip self movie_titles
       progress_callback w = (Returns classified, self', w') ->
     length (processed_movies self') = length movie_titles /\
     served lower md5_hexdigest strip (api_handler self) progress_callback
       (length movie_titles) 0 movie_titles w (processed_movies self') w' /\
     (forall k,
        classified !! k =
        if bool_decide (k ∈ bucket_keys)
        then Some (flat_map
                     (fun r => replicate (appearances k (genre_tags r)) r)
                     (processed_movies self'))
        else None) /\
     (forall r, r ∈ processed_movies self' ->
        (exists d, r = PDict d /\
           dict_get d "genres" = Some (PList (PStr <$> genre_tags r))) /\
        (genre_tags r <> [] ->
         (forall k, appearances k (genre_tags r) = fan_out k (genre_tags r)) /\
         (forall k,
            fan_out k (genre_tags r)
            = length (filter (fun g => lands g = k) (genre_tags r))) /\
         sum_list ((fun k => fan_out k (genre_tags r)) <$> bucket_keys)
         = length (genre_tags r)))) /\
  (fan_out "Drama" ["Drama"; "Bogus"] = 1 /\
   fan_out "Unknown" ["Drama"; "Bogus"] = 1) /\
  fan_out "Unknown" ["Biography"; "Sport"] = 2 /\
  fan_out "Drama" ["Drama"; "Drama"] = 2.
Proof.
  split; [|split; [|by vm_compute]].
  - intros Hc He. unfold classify_movies.
    by destruct (classify_loop_spec lower md5_hexdigest strip
                   (api_handler self) progress_callback (length movie_titles)
                   movie_titles 0 empty_buckets [] w Hc He
                   empty_buckets_keyed)
      as (b' & records & w' & -> & _).
  - intros classified self' w'. unfold classify_movies.
    destruct (classify_loop _ _ _ _ _ _ _ _ _ _ _) as [[o records] w1] eqn:Hrun.
    intros [= -> <- <-]. cbn [processed_movies].
    pose proof (classified_lookup _ _ _ _ _ _ _ _ _ _ _ Hrun) as Hlookup.
    apply classify_loop_returns in Hrun as (rs & -> & _ & Hs & _);
      [|apply empty_buckets_keyed].
    cbn [app] in *. split_and!.
    + by eapply served_length.
    + done.
    + done.
    + intros r Hr.
      assert (Hp : Forall plain rs).
      { eapply served_Forall; [|exact Hs]. intros. by eapply fetch_plain. }
      rewrite Forall_forall in Hp. split; [by apply plain_tags, Hp|].
      intros Hne.
      split_and!; [|intros k; apply fan_out_lands|apply fan_out_total].
      intros k. unfold appearances. by destruct (genre_tags r).
Qed.

Lemma record_filed_once_per_genre_witness :
  calm (fresh [Response 200 (Some drama_bogus);
               Response 200 (Some biography_sport)]) /\
  encodable_titles ascii_lower ascii_strip ["Mixed"; "Ali"] /\
  returned (classify_movies ascii_lower readable_digest ascii_strip
              a_classifier ["Mixed"; "Ali"] false
              (fresh [Response 200 (Some drama_bogus);
                      Response 200 (Some biography_sport)])).1.1 = true /\
  exists classified self' w',
    classify_movies ascii_lower readable_digest ascii_strip a_classifier
      ["Mixed"; "Ali"] false
      (fresh [Response 200 (Some drama_bogus);
              Response 200 (Some biography_sport)])
    = (Returns classified, self', w') /\
    length (processed_movies self') = 2 /\
    served ascii_lower readable_digest ascii_strip (api_handler a_classifier)
      false 2 0 ["Mixed"; "Ali"]
      (fresh [Response 200 (Some drama_bogus);
              Response 200 (Some biography_sport)])
      (processed_movies self') w' /\
    (forall k,
       classified !! k =
       if bool_decide (k ∈ bucket_keys)
       then Some (flat_map
                    (fun r => replicate (appearances k (genre_tags r)) r)
                    (processed_movies self'))
       else None) /\
    (forall r, r ∈ processed_movies self' ->
       (exists d, r = PDict d /\
          dict_get d "genres" = Some (PList (PStr <$> genre_tags r))) /\
       (genre_tags r <> [] ->
        (forall k, appearances k (genre_tags r) = fan_out k (genre_tags r)) /\
        (forall k,
           fan_out k (genre_tags r)
           = length (filter (fun g => lands g = k) (genre_tags r))) /\
        sum_list ((fun k => fan_out k (genre_tags r)) <$> bucket_keys)
        = length (genre_tags r))).
Proof.
  destruct (record_filed_once_per_genre ascii_lower readable_digest
              ascii_strip a_classifier ["Mixed"; "Ali"] false
              (fresh [Response 200 (Some drama_bogus);
                      Response 200 (Some biography_sport)]))
    as (Hreturns & Hfiled & _).
  assert (Hc : calm (fresh [Response 200 (Some drama_bogus);
                            Response 200 (Some biography_sport)]))
    by (by apply fresh_calm).
  assert (He : encodable_titles ascii_lower ascii_strip ["Mixed"; "Ali"])
    by (by repeat constructor).
  pose proof (Hreturns Hc He) as Hr.
  split_and!; [exact Hc|exact He|exact Hr|].
  destruct (classify_movies _ _ _ _ _ _ _) as [[[classified|e] self'] w']
    eqn:Hrun; [|discriminate Hr].
  exists classified, self', w'. split; [done|]. by apply Hfiled.
Defined.

(** The fan-out scenario, run: the record lands under ["Drama"] and under
    ["Unknown"], and nowhere else. *)
Example drama_bogus_run :
  let run :=
    classify_movies ascii_lower readable_digest ascii_strip a_classifier
      ["Mixed"] false (fresh [Response 200 (Some drama_bogus)]) in
  processed_movies run.1.2 = [mixed_record] /\
  bucket run.1.1 "Drama" = Some [mixed_record] /\
  bucket run.1.1 "Unknown" = Some [mixed_record] /\
  bucket run.1.1 "Action" = Some [].
Proof. cbv zeta. split_and!; vm_compute; reflexivity. Qed.

(** The scenario of the spec: ["Sci-Fi"] is no key of the mapping, so the
    record lands under ["Action"] and under ["Unknown"]. *)
Example the_matrix_run :
  let run :=
    classify_movies ascii_lower readable_digest ascii_strip a_classifier
      ["The Matrix"] false (fresh [Response 200 (Some the_matrix)]) in
  processed_movies run.1.2 = [matrix_record] /\
  bucket run.1.1 "Action" = Some [matrix_record] /\
  bucket run.1.1 "Unknown" = Some [matrix_record] /\
  bucket run.1.1 "Science Fiction" = Some [].
Proof. cbv zeta. split_and!; vm_compute; reflexivity. Qed.




(** ** C9: the year of a range *)

(** C9 fails on the code.  For the [Year] ["2015–2019"] the record's
    [year] is ["20152019"], not the first segment ["2015"]: [replace] has
    removed every en-dash before [split] looks for one.  For ["2019–"] the
    two agree. *)
Theorem year_range_keeps_both_segments :
  (get_movie_data ascii_lower readable_digest a_handler "The Show"
     (fresh [Response 200 (Some a_series)])).1
  = Returns (PDict series_record) /\
  dict_get series_record "year" = Some (PStr "20152019") /\
  hd "" (split "–" "2015–2019") = "2015" /\
  year_of [("Year", PStr "2019–")] = "2019".
Proof. split_and!; vm_compute; reflexivity. Qed.

(** A [Year] without any en-dash is kept as it is. *)
Lemma replace_absent old new s :
  has_substring old s = false -> replace old new s = s.
Proof.
  unfold replace. induction s as [|c s IH]; [done|].
  cbn [has_substring replace_from]. intros [Hp Hs]%orb_false_iff.
  by rewrite Hp, (IH Hs).
Qed.

Lemma split_absent sep s :
  has_substring sep s = false -> split sep s = [s].
Proof.
  unfold split. induction s as [|c s IH]; [done|].
  cbn [has_substring split_from]. intros [Hp Hs]%orb_false_iff.
  by rewrite Hp, (IH Hs).
Qed.

Lemma year_of_single payload s :
  dict_get payload "Year" = Some (PStr s) ->
  has_substring "–" s = false ->
  year_of payload = s.
Proof.
  intros Hy Hs. unfold year_of, get_or. rewrite Hy.
  by rewrite (replace_absent _ _ _ Hs), (split_absent _ _ Hs).
Qed.

(** ** C8: statistics *)

Lemma dict_get_set d k v k' :
  dict_get (dict_set d k v) k'
  = if String.eqb k k' then Some v else dict_get d k'.
Proof.
  induction d as [|[k0 v0] d IH]; cbn [dict_set dict_get].
  { by destruct (String.eqb k k'). }
  destruct (String.eqb k0 k) eqn:E; cbn [dict_get].
  - apply String.eqb_eq in E as ->. by destruct (String.eqb k k').
  - destruct (String.eqb k0 k') eqn:E'; [|apply IH].
    apply String.eqb_eq in E' as ->. by rewrite String.eqb_sym, E.
Qed.

Lemma count_genres_returns gs counts :
  tallies counts ->
  exists counts',
    count_genres (PStr <$> gs) counts = Returns counts' /\ tallies counts'.
Proof.
  revert counts. induction gs as [|g gs IH]; intros counts Hc; [by eauto|].
  rewrite fmap_cons. cbn [count_genres count_genre].
  destruct (dict_get counts g) as [v|] eqn:Hg.
  - destruct (Hc _ _ Hg) as [n ->]. cbn [and_then]. apply IH.
    intros k v. rewrite dict_get_set.
    destruct (String.eqb g k); [intros [= <-]; by eauto|apply Hc].
  - cbn [and_then]. apply IH.
    intros k v. rewrite dict_get_set.
    destruct (String.eqb g k); [intros [= <-]; by eauto|apply Hc].
Qed.

Lemma count_all_returns records counts :
  Forall plain records -> tallies counts ->
  exists counts', count_all records counts = Returns counts'.
Proof.
  intros Hp. revert counts.
  induction Hp as [|r records (d & gs & -> & Hg) _ IH]; intros counts Hc;
    [by eauto|].
  cbn [count_all method_get and_then]. unfold get_or. rewrite Hg.
  cbn [iterate and_then].
  destruct (count_genres_returns gs counts Hc) as (counts1 & -> & Hc1).
  cbn [and_then]. by apply IH.
Qed.

Lemma count_if_returns test records :
  (forall d, exists b, test (PDict d) = Returns b) ->
  Forall plain records ->
  exists n, count_if test records = Returns n.
Proof.
  intros Ht. induction 1 as [|r records (d & gs & -> & _) _ [n IH]];
    [by eauto|].
  cbn [count_if]. destruct (Ht d) as [b ->]. rewrite IH. cbn [and_then].
  by eauto.
Qed.

(** C8, as stated, fails for an empty run: after classifying the empty
    list, [get_statistics] returns the empty mapping, which has no
    [success_rate] at all, where the claim has one equal to 0. *)
Lemma statistics_of_empty_run_are_empty :
  let run :=
    classify_movies ascii_lower readable_digest ascii_strip
      (new_classifier None) [] false (fresh []) in
  returned run.1.1 = true /\
  processed_movies run.1.2 = [] /\
  get_statistics run.1.2 = Returns [] /\
  dict_get [] "success_rate" = None /\
  dict_get [] "success_rate" <> Some (PInt 0).
Proof. done. Qed.

(** C8, amended.  When [processed_movies] is empty, [get_statistics]
    returns the empty mapping: no [success_rate], and nothing is divided.
    When it is not empty (and holds records as [get_movie_data] builds
    them), the mapping has
    [success_rate = found_movies / total_movies * 100]. *)
Theorem statistics_success_rate (self : MovieGenreClassifier) :
  (processed_movies self = [] -> get_statistics self = Returns []) /\
  (processed_movies self <> [] ->
   Forall plain (processed_movies self) ->
   exists d found_movies,
     get_statistics self = Returns d /\
     count_if is_found (processed_movies self) = Returns found_movies /\
     dict_get d "found_movies" = Some (PInt (Z.of_nat found_movies)) /\
     dict_get d "total_movies"
     = Some (PInt (Z.of_nat (length (processed_movies self)))) /\
     dict_get d "success_rate"
     = Some (PFloat (float_of_nat found_movies
                     / float_of_nat (length (processed_movies self))
                     * 100)%float)).
Proof.
  unfold get_statistics. split; [by intros ->|].
  destruct (processed_movies self) as [|m ms]; [done|].
  intros _ Hp. cbn [truthy negb].
  destruct (count_if_returns is_found (m :: ms)) as [found ->]; [|done|].
  { intros d. unfold is_found. cbn. by eauto. }
  destruct (count_if_returns has_unknown_genres (m :: ms)) as [unknown ->];
    [|done|].
  { intros d. unfold has_unknown_genres. cbn.
    destruct (negb _); by eauto. }
  destruct (count_all_returns (m :: ms) [] Hp) as [counts ->]; [done|].
  cbn [and_then length Nat.ltb Nat.leb]. by eexists _, found.
Qed.

Lemma statistics_success_rate_witness :
  (processed_movies (new_classifier None) = [] /\
   get_statistics (new_classifier None) = Returns []) /\
  processed_movies one_of_three <> [] /\
  Forall plain (processed_movies one_of_three) /\
  exists d found_movies,
    get_statistics one_of_three = Returns d /\
    count_if is_found (processed_movies one_of_three) = Returns found_movies /\
    dict_get d "found_movies" = Some (PInt (Z.of_nat found_movies)) /\
    dict_get d "total_movies"
    = Some (PInt (Z.of_nat (length (processed_movies one_of_three)))) /\
    dict_get d "success_rate"
    = Some (PFloat (float_of_nat found_movies
                    / float_of_nat (length (processed_movies one_of_three))
                    * 100)%float).
Proof.
  assert (Hp : Forall plain (processed_movies one_of_three)).
  { repeat constructor.
    - by exists (not_found_record "a"), ["Unknown"].
    - by exists matrix_fields, ["Action"; "Sci-Fi"].
    - by exists (not_found_record "b"), ["Unknown"]. }
  split_and!; [reflexivity| |discriminate|exact Hp|].
  - by apply (statistics_success_rate (new_classifier None)).
  - by apply (statistics_success_rate one_of_three).
Defined.

Example statistics_one_of_three :
  get_statistics one_of_three
  = Returns
      [ ("total_movies", PInt 3); ("found_movies", PInt 1);
        ("not_found_movies", PInt 2); ("unknown_genres", PInt 2);
        ("genre_counts",
          PDict [("Unknown", PInt 2); ("Action", PInt 1); ("Sci-Fi", PInt 1)]);
        ("success_rate", PFloat (1 / 3 * 100)%float) ].
Proof. vm_compute. reflexivity. Qed.

(** ** C10: export *)

Lemma strings_of_fmap gs : strings_of (PStr <$> gs) = Returns gs.
Proof.
  induction gs as [|g gs IH]; [done|].
  rewrite fmap_cons. cbn [strings_of]. by rewrite IH.
Qed.

(** The row of a record whose genres are a list of [str]: the genres are
    joined with [", "]; the rating is the record's own, and ["N/A"] only
    when the record has no ['rating'] key. *)
Lemma export_row_plain d gs :
  dict_get d "genres" = Some (PList (PStr <$> gs)) ->
  export_row (PDict d)
  = Returns [ ("Title", get_or d "title" (PStr ""));
              ("Year", get_or d "year" (PStr "Unknown"));
              ("Genres", PStr (join ", " gs));
              ("Rating", get_or d "rating" (PStr "N/A"));
              ("Overview", get_or d "overview" (PStr ""));
              ("Source", get_or d "source" (PStr "Unknown")) ].
Proof.
  intros Hg. unfold export_row, method_get, get_or. cbn [and_then].
  rewrite Hg. unfold method_join. cbn [iterate and_then].
  by rewrite strings_of_fmap.
Qed.

(** One row per record, in order. *)
Lemma export_rows_plain records :
  Forall plain records ->
  exists rows,
    export_rows records = Returns rows /\
    Forall2 (fun r row => export_row r = Returns row) records rows.
Proof.
  induction 1 as [|r records (d & gs & -> & Hg) _ (rows & IH & Hrows)].
  { by exists []. }
  cbn [export_rows]. rewrite (export_row_plain _ _ Hg), IH. cbn [and_then].
  eexists. split; [done|]. constructor; [|done]. by apply export_row_plain.
Qed.

(** C10 fails on the code for the rating.  The not-found record has the
    key ['rating'] with the value [None], so [movie.get('rating', 'N/A')]
    finds the key and the cell is [None], not ["N/A"].  (With the default
    credential every record is such a record.) *)
Theorem export_rating_of_default_record_is_none (w : world) :
  let run :=
    classify_movies ascii_lower readable_digest ascii_strip
      (new_classifier None) ["Nonexistent Movie XYZ"] false w in
  processed_movies run.1.2 = [PDict (not_found_record "Nonexistent Movie XYZ")] /\
  dict_get (not_found_record "Nonexistent Movie XYZ") "rating" = Some PNone /\
  export_to_dataframe run.1.2 = Returns [default_row] /\
  dict_get default_row "Rating" = Some PNone /\
  dict_get default_row "Rating" <> Some (PStr "N/A").
Proof.
  cbv zeta. unfold classify_movies.
  destruct (classify_loop_unusable ascii_lower readable_digest ascii_strip
              (api_handler (new_classifier None)) false 1
              ["Nonexistent Movie XYZ"] 0 empty_buckets [] w
              (or_intror eq_refl) empty_buckets_keyed) as (b' & Hrun).
  cbn [length]. rewrite Hrun. by split_and!.
Qed.

(** ** C2, C6: failures and the cache *)

Section cache.

Variable lower : string -> string.
Variable md5_hexdigest : string -> string.
Variable self : MovieAPIHandler.

Abbreviation cache_path := (_get_cache_path lower md5_hexdigest self).
Abbreviation path := (cache_file lower md5_hexdigest self).
Abbreviation load := (_load_from_cache lower md5_hexdigest self).
Abbreviation search := (search_movie_omdb lower md5_hexdigest self).
Abbreviation fetch := (get_movie_data lower md5_hexdigest self).
Abbreviation request := (request_omdb lower md5_hexdigest self).
Abbreviation lookup := (cached lower md5_hexdigest self).
Abbreviation save := (_save_to_cache lower md5_hexdigest self).

Lemma request_omdb_inv movie_title w :
  encodable lower movie_title ->
  request movie_title w = (Returns PNone, request_sent movie_title w) /\
    answer w = PNone \/
  exists status payload rest,
    service w = Response status (Some (PDict payload)) :: rest /\
    answer w = PDict payload /\
    eq_str (get_or payload "Response" PNone) "True" = true /\
    request movie_title w
    = (Returns (PDict payload),
       (save movie_title (PDict [("omdb", PDict payload)])
          (request_sent movie_title w)).2).
Proof.
  intros He. unfold answer.
  destruct (service w) as [|r rest] eqn:Hs.
  { left. split; [|done]. apply request_omdb_no_match. by rewrite Hs. }
  destruct (no_match r) eqn:Hn.
  { left. split; [apply request_omdb_no_match; by rewrite Hs|].
    by destruct r as [|? [[]|]]. }
  destruct r as [|status body]; [discriminate Hn|].
  cbn [no_match] in Hn. apply orb_false_iff in Hn as [Hst Hr].
  destruct body as [[| | | | | |payload]|]; try discriminate Hr.
  apply negb_false_iff in Hr. right. exists status, payload, rest.
  split_and!; try done. by eapply request_omdb_match.
Qed.

Lemma request_omdb_answer movie_title w :
  encodable lower movie_title ->
  (request movie_title w).1 = Returns (answer w).
Proof.
  intros He.
  destruct (request_omdb_inv movie_title w He)
    as [[-> ->]|(? & ? & ? & _ & -> & _ & ->)]; done.
Qed.

(** A request is logged, whatever comes back. *)
Lemma request_omdb_sent movie_title w :
  encodable lower movie_title ->
  sent (request movie_title w).2 = sent w ++ [movie_title].
Proof.
  intros He.
  destruct (request_omdb_inv movie_title w He)
    as [[-> _]|(? & ? & ? & _ & _ & _ & ->)]; [done|].
  by rewrite (save_encodable _ _ _ _ _ _ He).
Qed.

Lemma search_disk movie_title d w :
  (search movie_title (set_disk d w)).1 = (search movie_title w).1.
Proof.
  destruct (decide (omdb_api_key self = "")) as [Hk|Hk].
  { by rewrite !search_unusable by (by left). }
  destruct (decide (omdb_api_key self = "4bcd5aba")) as [Hp|Hp].
  { by rewrite !search_unusable by (by right). }
  destruct (has_surrogate (lower movie_title)) eqn:He.
  { by rewrite !search_surrogate. }
  rewrite !search_usable by done.
  change (lookup movie_title (set_disk d w)) with (lookup movie_title w).
  destruct (if truthy _ then _ else _) as [[]|]; try done.
  by rewrite !request_omdb_answer.
Qed.

(** The record that a lookup returns does not depend on the fate of the
    cache writes. *)
Lemma get_movie_data_disk movie_title d w :
  (fetch movie_title (set_disk d w)).1 = (fetch movie_title w).1.
Proof.
  pose proof (search_disk movie_title d w) as H.
  unfold get_movie_data, bind, lift, ret.
  destruct (search movie_title (set_disk d w)) as [[v1|e1] w1],
           (search movie_title w) as [[v2|e2] w2];
    cbn [fst] in H; try discriminate H; injection H as ->; [|done].
  by destruct (if truthy v2 then _ else _).
Qed.

(** The world after a lookup is the one the search left. *)
Lemma get_movie_data_world movie_title w :
  (fetch movie_title w).2 = (search movie_title w).2.
Proof.
  unfold get_movie_data, bind, lift, ret.
  destruct (search movie_title w) as [[v|e] w1]; [|done].
  by destruct (if truthy v then _ else _).
Qed.

Lemma get_movie_data_no_match movie_title w :
  usable self -> encodable lower movie_title ->
  cache_miss lower md5_hexdigest self movie_title w ->
  match service w with
  | r :: _ => no_match r = true
  | [] => True
  end ->
  fetch movie_title w
  = (Returns (PDict (not_found_record movie_title)),
     request_sent movie_title w).
Proof.
  intros Hu He Hm Hn. unfold get_movie_data, bind.
  rewrite (search_miss _ _ _ _ _ Hu He Hm).
  by rewrite (request_omdb_no_match _ _ _ _ _ Hn).
Qed.

(** The same, in terms of what [_load_from_cache] returned. *)
Lemma get_movie_data_miss_no_match movie_title w cached_data :
  usable self ->
  (load movie_title w).1 = Returns cached_data ->
  truthy cached_data = false \/ contains cached_data "omdb" = Returns false ->
  match service w with
  | r :: _ => no_match r = true
  | [] => True
  end ->
  fetch movie_title w
  = (Returns (PDict (not_found_record movie_title)),
     request_sent movie_title w).
Proof.
  intros Hu Hl Hm Hn.
  destruct (load movie_title w) as [o w0] eqn:Hload. cbn [fst] in Hl. subst o.
  apply load_inv in Hload as (He & -> & _).
  by apply get_movie_data_no_match.
Qed.

(** A cache file that is absent or cannot be read is a miss: the lookup
    goes on to the request, and returns the found record when the service
    has a well-formed match. *)
Lemma get_movie_data_after_failed_read movie_title w p :
  usable self ->
  cache_path movie_title = Returns p ->
  files w !! p = None \/ files w !! p = Some Unreadable ->
  sent (fetch movie_title w).2 = sent w ++ [movie_title] /\
  forall status payload rest,
    service w = Response status (Some (PDict payload)) :: rest ->
    ((400 <=? status) && (status <? 600))%nat = false ->
    eq_str (get_or payload "Response" PNone) "True" = true ->
    well_typed (PDict payload) = true ->
    exists d,
      (fetch movie_title w).1 = Returns (PDict d) /\
      found_record (PDict payload) movie_title = Returns d /\
      dict_get d "source" = Some (PStr "OMDb").
Proof.
  intros Hu [He ->]%cache_path_inv Hfile.
  assert (Hm : cache_miss lower md5_hexdigest self movie_title w).
  { left. unfold cached. by destruct Hfile as [-> | ->]. }
  pose proof (search_miss _ _ _ _ _ Hu He Hm) as Hs. split.
  - by rewrite get_movie_data_world, Hs, request_omdb_sent.
  - intros status payload rest Hserv Hst Hresp Hwt.
    unfold get_movie_data, bind, lift, ret. rewrite Hs.
    rewrite (request_omdb_match _ _ _ _ _ _ _ _ He Hserv Hst Hresp).
    assert (Ht : truthy (PDict payload) = true).
    { destruct payload; [discriminate Hresp|done]. }
    rewrite Ht, (found_record_eq _ movie_title Hwt).
    eexists. by split_and!.
Qed.

End cache.

(** C2, as stated, fails: a cache read failure does not end in the default
    record.  It is a cache miss; the request goes out, and when the service
    has a match the record is the found one. *)
Lemma unreadable_cache_then_match_is_found :
  _get_cache_path ascii_lower readable_digest a_handler "The Matrix"
  = Returns "cache/the matrix.json" /\
  files unreadable_cache !! "cache/the matrix.json" = Some Unreadable /\
  (get_movie_data ascii_lower readable_digest a_handler "The Matrix"
     unreadable_cache).1
  = Returns matrix_record /\
  matrix_record <> PDict (not_found_record "The Matrix").
Proof. split_and!; [vm_compute; reflexivity..|discriminate]. Qed.

(** C2, amended.  For a title that can be encoded, in a world whose payloads
    have the provider's shape, [get_movie_data] does not raise.  It returns
    the default record, without a request, when the credential is empty or
    the placeholder; and, after one request, when the credential is usable,
    what [_load_from_cache] returned has nothing to offer, and the request
    meets no reply, a 4xx or 5xx status, a body that is not JSON, or a
    payload whose [Response] is not ["True"].  A cache file that is absent
    or cannot be read or parsed does not end the lookup: the request is
    issued, and when the service answers with a well-formed match the found
    record is returned.  The fate of the cache writes never changes what is
    returned. *)
Theorem lookup_failures_give_default
    (lower md5_hexdigest : string -> string) (self : MovieAPIHandler)
    (movie_title : string) (w : world) :
  (calm w -> encodable lower movie_title ->
   exists r w',
     get_movie_data lower md5_hexdigest self movie_title w = (Returns r, w')) /\
  (omdb_api_key self = "" \/ omdb_api_key self = "4bcd5aba" ->
   get_movie_data lower md5_hexdigest self movie_title w
   = (Returns (PDict (not_found_record movie_title)), w)) /\
  (forall cached_data,
     usable self ->
     (_load_from_cache lower md5_hexdigest self movie_title w).1
     = Returns cached_data ->
     truthy cached_data = false \/
     contains cached_data "omdb" = Returns false ->
     match service w with
     | r :: _ => no_match r = true
     | [] => True
     end ->
     get_movie_data lower md5_hexdigest self movie_title w
     = (Returns (PDict (not_found_record movie_title)),
        request_sent movie_title w)) /\
  (forall p,
     usable self ->
     _get_cache_path lower md5_hexdigest self movie_title = Returns p ->
     files w !! p = None \/ files w !! p = Some Unreadable ->
     sent (get_movie_data lower md5_hexdigest self movie_title w).2
     = sent w ++ [movie_title] /\
     forall status payload rest,
       service w = Response status (Some (PDict payload)) :: rest ->
       ((400 <=? status) && (status <? 600))%nat = false ->
       eq_str (get_or payload "Response" PNone) "True" = true ->
       well_typed (PDict payload) = true ->
       exists d,
         (get_movie_data lower md5_hexdigest self movie_title w).1
         = Returns (PDict d) /\
         found_record (PDict payload) movie_title = Returns d /\
         dict_get d "source" = Some (PStr "OMDb")) /\
  (forall d,
     (get_movie_data lower md5_hexdigest self movie_title (set_disk d w)).1
     = (get_movie_data lower md5_hexdigest self movie_title w).1).
Proof.
  split_and!.
  - intros Hc He.
    destruct (get_movie_data_calm lower md5_hexdigest self movie_title w Hc He)
      as (r & w' & Hf & _).
    by eauto.
  - apply get_movie_data_unusable.
  - intros cached_data. apply get_movie_data_miss_no_match.
  - intros p. apply get_movie_data_after_failed_read.
  - intros d. apply get_movie_data_disk.
Qed.

Lemma lookup_failures_give_default_witness :
  (calm (fresh [Response 503 None]) /\
   encodable ascii_lower "The Matrix" /\
   exists r w',
     get_movie_data ascii_lower readable_digest a_handler "The Matrix"
       (fresh [Response 503 None]) = (Returns r, w')) /\
  ((omdb_api_key (new_handler None) = "" \/
    omdb_api_key (new_handler None) = "4bcd5aba") /\
   get_movie_data ascii_lower readable_digest (new_handler None) "The Matrix"
     (fresh [Response 503 None])
   = (Returns (PDict (not_found_record "The Matrix")),
      fresh [Response 503 None])) /\
  (usable a_handler /\
   (_load_from_cache ascii_lower readable_digest a_handler "The Matrix"
      (fresh [Response 503 None])).1 = Returns PNone /\
   (truthy PNone = false \/ contains PNone "omdb" = Returns false) /\
   no_match (Response 503 None) = true /\
   get_movie_data ascii_lower readable_digest a_handler "The Matrix"
     (fresh [Response 503 None])
   = (Returns (PDict (not_found_record "The Matrix")),
      request_sent "The Matrix" (fresh [Response 503 None]))) /\
  (_get_cache_path ascii_lower readable_digest a_handler "The Matrix"
   = Returns "cache/the matrix.json" /\
   (files unreadable_cache !! "cache/the matrix.json" = None \/
    files unreadable_cache !! "cache/the matrix.json" = Some Unreadable) /\
   sent (get_movie_data ascii_lower readable_digest a_handler "The Matrix"
           unreadable_cache).2
   = sent unreadable_cache ++ ["The Matrix"] /\
   service unreadable_cache = [Response 200 (Some (PDict matrix_payload))] /\
   ((400 <=? 200) && (200 <? 600))%nat = false /\
   eq_str (get_or matrix_payload "Response" PNone) "True" = true /\
   well_typed (PDict matrix_payload) = true /\
   exists d,
     (get_movie_data ascii_lower readable_digest a_handler "The Matrix"
        unreadable_cache).1 = Returns (PDict d) /\
     found_record (PDict matrix_payload) "The Matrix" = Returns d /\
     dict_get d "source" = Some (PStr "OMDb")) /\
  (get_movie_data ascii_lower readable_digest a_handler "The Matrix"
     (set_disk [OpenFails] (fresh [Response 200 (Some the_matrix)]))).1
  = (get_movie_data ascii_lower readable_digest a_handler "The Matrix"
       (fresh [Response 200 (Some the_matrix)])).1.
Proof.
  assert (Hpath :
    _get_cache_path ascii_lower readable_digest a_handler "The Matrix"
    = Returns "cache/the matrix.json") by reflexivity.
  assert (Hbad :
    files unreadable_cache !! "cache/the matrix.json" = None \/
    files unreadable_cache !! "cache/the matrix.json" = Some Unreadable)
    by (right; vm_compute; reflexivity).
  destruct (lookup_failures_give_default ascii_lower readable_digest a_handler
              "The Matrix" (fresh [Response 503 None]))
    as (Hcalm & _ & Hmiss & _).
  destruct (lookup_failures_give_default ascii_lower readable_digest
              (new_handler None) "The Matrix" (fresh [Response 503 None]))
    as (_ & Hkey & _).
  destruct (lookup_failures_give_default ascii_lower readable_digest a_handler
              "The Matrix" unreadable_cache)
    as (_ & _ & _ & Hread & _).
  destruct (Hread "cache/the matrix.json" a_handler_usable Hpath Hbad)
    as [Hsent Hfound].
  destruct (lookup_failures_give_default ascii_lower readable_digest a_handler
              "The Matrix" (fresh [Response 200 (Some the_matrix)]))
    as (_ & _ & _ & _ & Hdisk).
  split_and!.
  - by apply fresh_calm.
  - reflexivity.
  - apply Hcalm; [by apply fresh_calm|reflexivity].
  - by right.
  - apply Hkey. by right.
  - exact a_handler_usable.
  - reflexivity.
  - by left.
  - reflexivity.
  - apply (Hmiss PNone); [exact a_handler_usable|reflexivity|by left|reflexivity].
  - exact Hpath.
  - exact Hbad.
  - exact Hsent.
  - reflexivity.
  - reflexivity.
  - reflexivity.
  - reflexivity.
  - apply (Hfound 200 matrix_payload []); reflexivity.
  - apply Hdisk.
Defined.

(** What the amended claim leaves out: payloads of another shape, and
    titles that cannot be encoded.  A match whose [Year] is [null] makes
    [get_movie_data] raise, and so does a title with a lone surrogate when
    the credential is usable. *)
Example null_year_raises :
  (get_movie_data ascii_lower readable_digest a_handler "Odd"
     (fresh [Response 200
               (Some (PDict [("Response", PStr "True"); ("Year", PNone)]))])).1
  = Raises AttributeError.
Proof. vm_compute. reflexivity. Qed.

Example lone_surrogate_raises :
  _get_cache_path ascii_lower readable_digest a_handler lone_surrogate
  = Raises UnicodeEncodeError /\
  get_movie_data ascii_lower readable_digest a_handler lone_surrogate
    (fresh [Response 200 (Some the_matrix)])
  = (Raises UnicodeEncodeError, fresh [Response 200 (Some the_matrix)]) /\
  get_movie_data ascii_lower readable_digest (new_handler None) lone_surrogate
    (fresh [Response 200 (Some the_matrix)])
  = (Returns (PDict (not_found_record lone_surrogate)),
     fresh [Response 200 (Some the_matrix)]).
Proof. split_and!; vm_compute; reflexivity. Qed.



Section twice.

Variable lower : string -> string.
Variable md5_hexdigest : string -> string.
Variable self : MovieAPIHandler.

Lemma cache_path_lower t1 t2 :
  lower t1 = lower t2 ->
  _get_cache_path lower md5_hexdigest self t1
  = _get_cache_path lower md5_hexdigest self t2.
Proof. unfold _get_cache_path. by intros ->. Qed.





End twice.




(** The same, run: the second fetch, under another spelling, sends nothing
    and returns the same record. *)
Example the_matrix_twice :
  let first :=
    get_movie_data ascii_lower readable_digest a_handler "The Matrix"
      (fresh [Response 200 (Some the_matrix)]) in
  let second :=
    get_movie_data ascii_lower readable_digest a_handler "THE MATRIX"
      first.2 in
  first.1 = Returns matrix_record /\
  second.1 = Returns matrix_record /\
  sent second.2 = ["The Matrix"].
Proof. cbv zeta. split_and!; vm_compute; reflexivity. Qed.

(** * Further properties of the code *)

(** ** What a lookup does to the world *)

Lemma found_record_raises omdb_data movie_title e :
  found_record omdb_data movie_title = Raises e -> e = AttributeError.
Proof.
  unfold found_record, method_get.
  destruct omdb_data as [| | | | | |payload]; cbn [and_then];
    try (by intros [= <-]).
  destruct (truthy (get_or payload "Genre" PNone)); cbn [and_then].
  - destruct (get_or payload "Genre" (PStr "")); cbn [method_split and_then];
      try (by intros [= <-]).
    destruct (get_or payload "Year" (PStr "Unknown"));
      cbn [method_replace method_split and_then]; try (by intros [= <-]).
    match goal with
    | |- context [split "–" ?x] => destruct (split_cons "–" x) as (p & ps & ->)
    end. discriminate.
  - destruct (get_or payload "Year" (PStr "Unknown"));
      cbn [method_replace method_split and_then]; try (by intros [= <-]).
    match goal with
    | |- context [split "–" ?x] => destruct (split_cons "–" x) as (p & ps & ->)
    end. discriminate.
Qed.

Section effects.

Variable lower : string -> string.
Variable md5_hexdigest : string -> string.
Variable self : MovieAPIHandler.

Abbreviation path_of := (_get_cache_path lower md5_hexdigest self).
Abbreviation search_for := (search_movie_omdb lower md5_hexdigest self).
Abbreviation fetch_for := (get_movie_data lower md5_hexdigest self).
Abbreviation save_for := (_save_to_cache lower md5_hexdigest self).

(** The five ways a search can end: with the world as it was (no
    credential, or the cache answered), with a [TypeError] from a cache file
    of another shape, with a [UnicodeEncodeError] from a title that cannot
    be encoded, after a request without a match, or after a request with a
    match, whose payload is then written. *)
Lemma search_cases movie_title w :
  (exists v, search_for movie_title w = (Returns v, w)) \/
  search_for movie_title w = (Raises TypeError, w) \/
  (has_surrogate (lower movie_title) = true /\ usable self /\
   search_for movie_title w = (Raises UnicodeEncodeError, w)) \/
  search_for movie_title w = (Returns PNone, request_sent movie_title w) \/
  exists payload,
    eq_str (get_or payload "Response" PNone) "True" = true /\
    search_for movie_title w
    = (Returns (PDict payload),
       (save_for movie_title (PDict [("omdb", PDict payload)])
          (request_sent movie_title w)).2).
Proof.
  destruct (decide (omdb_api_key self = "")) as [Hk|Hk].
  { left. exists PNone. by apply search_unusable; left. }
  destruct (decide (omdb_api_key self = "4bcd5aba")) as [Hp|Hp].
  { left. exists PNone. by apply search_unusable; right. }
  destruct (has_surrogate (lower movie_title)) eqn:He.
  { right; right; left. split_and!; [done..|]. by apply search_surrogate. }
  rewrite search_usable by done.
  assert (Hreq :
    request_omdb lower md5_hexdigest self movie_title w
      = (Returns PNone, request_sent movie_title w) \/
    exists payload,
      eq_str (get_or payload "Response" PNone) "True" = true /\
      request_omdb lower md5_hexdigest self movie_title w
      = (Returns (PDict payload),
         (save_for movie_title (PDict [("omdb", PDict payload)])
            (request_sent movie_title w)).2)).
  { destruct (request_omdb_inv lower md5_hexdigest self movie_title w He)
      as [[Hr _]|(status & payload & rest & _ & _ & Hresp & Hr)]; [by left|].
    right. by exists payload. }
  destruct (truthy (cached lower md5_hexdigest self movie_title w)) eqn:Ht;
    [|by right; right; right].
  destruct (cached lower md5_hexdigest self movie_title w)
    as [| | | | s | l | entry]; cbn [contains]; try (by right; left).
  - destruct (has_substring "omdb" s);
      [by right; left|by right; right; right].
  - destruct (existsb _ l); [by right; left|by right; right; right].
  - cbn [subscript]. destruct (dict_get entry "omdb") as [v|].
    + rewrite bool_decide_eq_true_2 by eauto. left. by exists v.
    + rewrite bool_decide_eq_false_2 by (by intros [? ?]).
      by right; right; right.
Qed.

Lemma save_effects movie_title data w :
  sent (save_for movie_title data w).2 = sent w /\
  service (save_for movie_title data w).2 = service w /\
  shown (save_for movie_title data w).2 = shown w /\
  forall p, path_of movie_title <> Returns p ->
    files (save_for movie_title data w).2 !! p = files w !! p.
Proof.
  destruct (has_surrogate (lower movie_title)) eqn:He.
  { by rewrite (save_surrogate _ _ _ _ _ _ He). }
  rewrite (save_encodable _ _ _ _ _ _ He),
    (cache_path_encodable _ _ _ _ He).
  destruct (disk w) as [|[] ?]; cbn [snd write_done sent service shown files];
    split_and!; try done; intros p Hp; rewrite lookup_insert_ne; try done;
    by intros <-.
Qed.

End effects.

(** X1.  Whatever the cache holds and whatever the service does,
    [get_movie_data] either returns or raises one of three exceptions:
    [AttributeError] or [TypeError], from a payload or a cache file of the
    wrong shape, or [UnicodeEncodeError], which it raises for a title that
    cannot be encoded when the credential is usable, and then before any
    request.  A transport error, a bad status or a body that is not JSON
    never reaches the caller. *)
Theorem get_movie_data_raises_only_three_errors
    (lower md5_hexdigest : string -> string) (self : MovieAPIHandler)
    (movie_title : string) (w : world) :
  ((exists r, (get_movie_data lower md5_hexdigest self movie_title w).1
              = Returns r) \/
   (get_movie_data lower md5_hexdigest self movie_title w).1
   = Raises AttributeError \/
   (get_movie_data lower md5_hexdigest self movie_title w).1
   = Raises TypeError \/
   (usable self /\ has_surrogate (lower movie_title) = true /\
    get_movie_data lower md5_hexdigest self movie_title w
    = (Raises UnicodeEncodeError, w))) /\
  (usable self -> has_surrogate (lower movie_title) = true ->
   get_movie_data lower md5_hexdigest self movie_title w
   = (Raises UnicodeEncodeError, w)).
Proof.
  unfold get_movie_data, bind, lift, ret. split.
  - destruct (search_cases lower md5_hexdigest self movie_title w)
      as [[v ->]|[->|[(He & Hu & ->)|[->|(payload & _ & ->)]]]].
    + destruct (if truthy v then _ else _) as [d|e] eqn:Hrec;
        [left; by eauto|].
      destruct (truthy v); [|done].
      apply found_record_raises in Hrec as ->. by right; left.
    + by right; right; left.
    + by right; right; right.
    + left. by eauto.
    + destruct (if truthy _ then _ else _) as [d|e] eqn:Hrec;
        [left; by eauto|].
      destruct (truthy (PDict payload)); [|done].
      apply found_record_raises in Hrec as ->. by right; left.
  - intros Hu He. by rewrite search_surrogate.
Qed.

Lemma get_movie_data_raises_only_three_errors_witness :
  usable a_handler /\
  has_surrogate (ascii_lower lone_surrogate) = true /\
  get_movie_data ascii_lower readable_digest a_handler lone_surrogate
    (fresh [Response 200 (Some the_matrix)])
  = (Raises UnicodeEncodeError, fresh [Response 200 (Some the_matrix)]).
Proof.
  split; [exact a_handler_usable|]. split; [reflexivity|].
  apply (get_movie_data_raises_only_three_errors ascii_lower readable_digest
           a_handler lone_surrogate (fresh [Response 200 (Some the_matrix)]));
    [exact a_handler_usable|reflexivity].
Defined.

(** X2.  One call of [get_movie_data] issues at most one request, for its
    own title, and consumes at most one reply; the progress log is not
    touched. *)
Theorem get_movie_data_sends_at_most_one_request
    (lower md5_hexdigest : string -> string) (self : MovieAPIHandler)
    (movie_title : string) (w : world) :
  let w' := (get_movie_data lower md5_hexdigest self movie_title w).2 in
  shown w' = shown w /\
  ((sent w' = sent w /\ service w' = service w) \/
   (sent w' = sent w ++ [movie_title] /\ service w' = tail (service w))).
Proof.
  cbv zeta. rewrite get_movie_data_world.
  destruct (search_cases lower md5_hexdigest self movie_title w)
    as [[v ->]|[->|[(_ & _ & ->)|[->|(payload & _ & ->)]]]]; cbn [snd].
  - by split; [|left].
  - by split; [|left].
  - by split; [|left].
  - by split; [|right].
  - destruct (save_effects lower md5_hexdigest self movie_title
                (PDict [("omdb", PDict payload)])
                (request_sent movie_title w)) as (-> & -> & -> & _).
    by split; [|right].
Qed.

(** X3.  [get_movie_data] changes no cache file but the one of its own
    title, whose path [_get_cache_path] returns. *)
Theorem get_movie_data_leaves_other_files
    (lower md5_hexdigest : string -> string) (self : MovieAPIHandler)
    (movie_title : string) (w : world) (p : string) :
  _get_cache_path lower md5_hexdigest self movie_title <> Returns p ->
  files (get_movie_data lower md5_hexdigest self movie_title w).2 !! p
  = files w !! p.
Proof.
  intros Hp. rewrite get_movie_data_world.
  destruct (search_cases lower md5_hexdigest self movie_title w)
    as [[v ->]|[->|[(_ & _ & ->)|[->|(payload & _ & ->)]]]]; cbn [snd];
    try done.
  destruct (save_effects lower md5_hexdigest self movie_title
              (PDict [("omdb", PDict payload)])
              (request_sent movie_title w)) as (_ & _ & _ & Hfiles).
  by rewrite Hfiles.
Qed.

Lemma get_movie_data_leaves_other_files_witness :
  _get_cache_path ascii_lower readable_digest a_handler "The Matrix"
  <> Returns "cache/other.json" /\
  files (get_movie_data ascii_lower readable_digest a_handler "The Matrix"
           (fresh [Response 200 (Some the_matrix)])).2 !! "cache/other.json"
  = files (fresh [Response 200 (Some the_matrix)]) !! "cache/other.json".
Proof.
  split; [discriminate|].
  apply (get_movie_data_leaves_other_files ascii_lower readable_digest
           a_handler "The Matrix" (fresh [Response 200 (Some the_matrix)])).
  discriminate.
Defined.

(** X4.  A lookup that ends in the not-found record writes nothing: the
    cache files and the pending disk writes are as before, so a title
    without a match is never cached. *)
Theorem not_found_is_never_cached
    (lower md5_hexdigest : string -> string) (self : MovieAPIHandler)
    (movie_title : string) (w w' : world) :
  get_movie_data lower md5_hexdigest self movie_title w
  = (Returns (PDict (not_found_record movie_title)), w') ->
  files w' = files w /\ disk w' = disk w.
Proof.
  unfold get_movie_data, bind, lift, ret.
  destruct (search_cases lower md5_hexdigest self movie_title w)
    as [[v ->]|[->|[(_ & _ & ->)|[->|(payload & Hresp & ->)]]]];
    [| done | done | |].
  - destruct (if truthy v then _ else _); [|done]. by intros [= _ <-].
  - cbn. by intros [= <-].
  - destruct (truthy (PDict payload)) eqn:Ht.
    2:{ destruct payload; [discriminate Hresp|discriminate Ht]. }
    destruct (found_record (PDict payload) movie_title) as [d|e] eqn:Hrec;
      [|done].
    apply found_record_inv in Hrec as (p & _ & ->). cbn. by intros [= ? _].
Qed.

Lemma not_found_is_never_cached_witness :
  get_movie_data ascii_lower readable_digest a_handler "Nonexistent Movie XYZ"
    (fresh [Response 200 (Some no_such_movie)])
  = (Returns (PDict (not_found_record "Nonexistent Movie XYZ")),
     request_sent "Nonexistent Movie XYZ"
       (fresh [Response 200 (Some no_such_movie)])) /\
  files (request_sent "Nonexistent Movie XYZ"
           (fresh [Response 200 (Some no_such_movie)]))
  = files (fresh [Response 200 (Some no_such_movie)]) /\
  disk (request_sent "Nonexistent Movie XYZ"
          (fresh [Response 200 (Some no_such_movie)]))
  = disk (fresh [Response 200 (Some no_such_movie)]).
Proof.
  split; [reflexivity|].
  by apply (not_found_is_never_cached ascii_lower readable_digest a_handler
              "Nonexistent Movie XYZ"
              (fresh [Response 200 (Some no_such_movie)])).
Defined.

(** ** The cache *)

(** X6.  A title whose cache file holds a payload is answered from the
    cache alone: with a usable credential, [get_movie_data] returns the
    found record built from the cached payload and leaves the world as it
    was, so no request is issued and nothing is written, whatever the
    service would have replied. *)
Theorem cached_title_is_served_offline
    (lower md5_hexdigest : string -> string) (self : MovieAPIHandler)
    (movie_title : string) (w : world) (p : string)
    (entry payload : pydict) :
  usable self ->
  _get_cache_path lower md5_hexdigest self movie_title = Returns p ->
  files w !! p = Some (Holds (PDict entry)) ->
  dict_get entry "omdb" = Some (PDict payload) ->
  payload <> [] ->
  well_typed (PDict payload) = true ->
  exists d,
    get_movie_data lower md5_hexdigest self movie_title w = (Returns (PDict d), w) /\
    found_record (PDict payload) movie_title = Returns d /\
    dict_get d "omdb" = Some (PDict payload) /\
    dict_get d "source" = Some (PStr "OMDb").
Proof.
  intros Hu [He ->]%cache_path_inv Hfile Homdb Hne Hwt.
  unfold get_movie_data, bind, lift, ret.
  rewrite search_usable by done. unfold cached. rewrite Hfile.
  assert (Hentry : truthy (PDict entry) = true).
  { destruct entry; [discriminate Homdb|done]. }
  rewrite Hentry. cbn [contains subscript]. rewrite Homdb.
  rewrite bool_decide_eq_true_2 by eauto.
  assert (Hpay : truthy (PDict payload) = true) by (by destruct payload).
  rewrite Hpay, (found_record_eq _ movie_title Hwt).
  eexists. by split_and!.
Qed.

Lemma cached_title_is_served_offline_witness :
  usable a_handler /\
  _get_cache_path ascii_lower readable_digest a_handler "THE MATRIX"
  = Returns "cache/the matrix.json" /\
  files matrix_offline !! "cache/the matrix.json"
  = Some (Holds (PDict [("omdb", the_matrix)])) /\
  dict_get [("omdb", the_matrix)] "omdb"
  = Some (PDict [ ("Response", PStr "True"); ("Title", PStr "The Matrix");
                  ("Genre", PStr "Action, Sci-Fi"); ("Year", PStr "1999");
                  ("Plot", PStr "..."); ("imdbRating", PStr "8.7") ]) /\
  exists d,
    get_movie_data ascii_lower readable_digest a_handler "THE MATRIX"
      matrix_offline = (Returns (PDict d), matrix_offline) /\
    found_record the_matrix "THE MATRIX" = Returns d /\
    dict_get d "omdb" = Some the_matrix /\
    dict_get d "source" = Some (PStr "OMDb").
Proof.
  assert (Hfile : files matrix_offline !! "cache/the matrix.json"
    = Some (Holds (PDict [("omdb", the_matrix)])))
    by (vm_compute; reflexivity).
  split_and!; [exact a_handler_usable|reflexivity|exact Hfile|reflexivity|].
  apply (cached_title_is_served_offline ascii_lower readable_digest a_handler
           "THE MATRIX" matrix_offline "cache/the matrix.json"
           [("omdb", the_matrix)]);
    [exact a_handler_usable|reflexivity|exact Hfile|reflexivity|discriminate
    |reflexivity].
Defined.

(** ** The classification loop in any world *)

Section loop.

Variable lower : string -> string.
Variable md5_hexdigest : string -> string.
Variable strip : string -> string.
Variable handler : MovieAPIHandler.
Variable progress_callback : bool.
Variable total_movies : nat.

Abbreviation run_loop :=
  (classify_loop lower md5_hexdigest strip handler progress_callback
     total_movies).
Abbreviation lookup_of := (get_movie_data lower md5_hexdigest handler).
Abbreviation served_in :=
  (served lower md5_hexdigest strip handler progress_callback total_movies).

Lemma lookup_sent movie_title w :
  exists x,
    sent (lookup_of movie_title w).2 = sent w ++ x /\
    (x = [] \/ x = [movie_title]).
Proof.
  rewrite get_movie_data_world.
  destruct (search_cases lower md5_hexdigest handler movie_title w)
    as [[v ->]|[->|[(_ & _ & ->)|[->|(payload & _ & ->)]]]]; cbn [snd].
  - exists []. by rewrite app_nil_r; auto.
  - exists []. by rewrite app_nil_r; auto.
  - exists []. by rewrite app_nil_r; auto.
  - exists [movie_title]. by auto.
  - destruct (save_effects lower md5_hexdigest handler movie_title
                (PDict [("omdb", PDict payload)])
                (request_sent movie_title w)) as (-> & _).
    exists [movie_title]. by auto.
Qed.

Lemma lookup_shown movie_title w :
  shown (lookup_of movie_title w).2 = shown w.
Proof.
  rewrite get_movie_data_world.
  destruct (search_cases lower md5_hexdigest handler movie_title w)
    as [[v ->]|[->|[(_ & _ & ->)|[->|(payload & _ & ->)]]]]; cbn [snd];
    try done.
  by destruct (save_effects lower md5_hexdigest handler movie_title
                 (PDict [("omdb", PDict payload)])
                 (request_sent movie_title w)) as (_ & _ & -> & _).
Qed.

Lemma report_sent current w :
  sent (report progress_callback current total_movies w) = sent w.
Proof. unfold report. by destruct progress_callback. Qed.

(** The requests of a run, whatever its outcome: at most one per title,
    for the stripped title, in input order. *)
Lemma loop_requests titles i b processed w :
  exists l,
    sent (run_loop titles i b processed w).2 = sent w ++ l /\
    sublist l (strip <$> titles).
Proof.
  revert i b processed w.
  induction titles as [|title rest IH]; intros i b processed w.
  { exists []. by rewrite app_nil_r. }
  cbn [classify_loop].
  destruct (lookup_sent (strip title)
              (report progress_callback (i + 1) total_movies w))
    as (x & Hx & Hcase).
  rewrite report_sent in Hx.
  assert (Hsub : forall l, sublist l (strip <$> rest) ->
                           sublist (x ++ l) (strip <$> title :: rest)).
  { intros l Hl. rewrite fmap_cons.
    destruct Hcase as [-> | ->]; [by apply sublist_cons|by apply sublist_skip]. }
  destruct (lookup_of (strip title) _) as [[r|e] w1]; cbn [snd] in Hx.
  2:{ exists x. split; [done|]. rewrite <-(app_nil_r x). apply Hsub.
      apply sublist_nil_l. }
  destruct (add_to_categories r b) as [b1|e].
  2:{ exists x. split; [done|]. rewrite <-(app_nil_r x). apply Hsub.
      apply sublist_nil_l. }
  destruct (IH (S i) b1 (processed ++ [r]) w1) as (l & Hl & Hsl).
  exists (x ++ l). rewrite Hl, Hx, <-app_assoc. split; [done|by apply Hsub].
Qed.

(** The calls of the callback in a run that returns. *)
Lemma loop_shown titles i b processed w b' processed' w' :
  run_loop titles i b processed w = (Returns b', processed', w') ->
  shown w'
  = shown w ++
    if progress_callback
    then (fun j => (j + 1, total_movies)) <$> seq i (length titles)
    else [].
Proof.
  revert i b processed w.
  induction titles as [|title rest IH]; intros i b processed w.
  { cbn. intros [= _ _ <-]. destruct progress_callback; by rewrite app_nil_r. }
  cbn [classify_loop].
  pose proof (lookup_shown (strip title)
                (report progress_callback (i + 1) total_movies w)) as Hs.
  destruct (lookup_of (strip title) _) as [[r|e] w1]; [|done].
  cbn [snd] in Hs.
  destruct (add_to_categories r b) as [b1|e]; [|done].
  intros Hrun. rewrite (IH _ _ _ _ Hrun), Hs. unfold report.
  destruct progress_callback; cbn [shown length seq]; [|done].
  by rewrite fmap_cons, <-app_assoc.
Qed.

(** A run either returns, having served every title, or stops at the first
    title whose lookup raises, with the records served before it. *)
Lemma loop_outcome titles i b processed w :
  keyed b ->
  (exists b' records w',
     run_loop titles i b processed w = (Returns b', processed ++ records, w') /\
     served_in i titles w records w') \/
  (exists e records w' w0 title,
     run_loop titles i b processed w = (Raises e, processed ++ records, w') /\
     length records < length titles /\
     served_in i (take (length records) titles) w records w0 /\
     titles !! length records = Some title /\
     lookup_of (strip title)
       (report progress_callback (i + length records + 1) total_movies w0)
     = (Raises e, w')).
Proof.
  revert i b processed w.
  induction titles as [|title rest IH]; intros i b processed w Hb.
  { left. exists b, [], w. rewrite app_nil_r. split; [done|constructor]. }
  cbn [classify_loop].
  destruct (lookup_of (strip title) _) as [[r|e] w1] eqn:Hf.
  2:{ right. exists e, [], w1, w, title. rewrite app_nil_r.
      cbn [length take]. rewrite Nat.add_0_r.
      split_and!; [done|lia|constructor|done|done]. }
  destruct (add_to_categories_spec r b Hb
              (fetch_plain lower md5_hexdigest handler _ _ _ _ Hf))
    as (b1 & -> & Hb1 & _).
  destruct (IH (S i) b1 (processed ++ [r]) w1 Hb1)
    as [(b' & records & w' & -> & Hs)
       |(e & records & w' & w0 & t & -> & Hlen & Hs & Ht & Hfail)].
  - left. exists b', (r :: records), w'. rewrite <-app_assoc.
    split; [done|by econstructor].
  - right. exists e, (r :: records), w', w0, t. rewrite <-app_assoc.
    cbn [length take lookup list_lookup].
    split_and!; [done|lia|by econstructor|done|].
    by replace (i + S (length records) + 1) with (S i + length records + 1)
      by lia.
Qed.

End loop.

(** X7.  Over titles that can be encoded, in a world whose payloads have
    the provider's shape, [classify_movies] calls a progress callback
    exactly once per title, in order, with [(1, n), (2, n), ..., (n, n)]
    for [n] titles: [current] runs from 1 to [total] and [total] is never
    0.  Without a callback nothing is reported. *)
Theorem progress_reported_once_per_title
    (lower md5_hexdigest strip : string -> string)
    (self : MovieGenreClassifier) (movie_titles : list string)
    (progress_callback : bool) (w : world) :
  calm w ->
  encodable_titles lower strip movie_titles ->
  exists classified self' w',
    classify_movies lower md5_hexdigest strip self movie_titles
      progress_callback w = (Returns classified, self', w') /\
    shown w'
    = shown w ++
      (if progress_callback
       then (fun j => (j + 1, length movie_titles))
              <$> seq 0 (length movie_titles)
       else []) /\
    forall current total,
      (current, total)
        ∈ (fun j => (j + 1, length movie_titles))
            <$> seq 0 (length movie_titles) ->
      1 <= current <= total /\ total = length movie_titles.
Proof.
  intros Hc He. unfold classify_movies.
  destruct (classify_loop_spec lower md5_hexdigest strip (api_handler self)
              progress_callback (length movie_titles) movie_titles 0
              empty_buckets [] w Hc He empty_buckets_keyed)
    as (b' & records & w' & Hrun & _).
  rewrite Hrun. eexists _, _, _. split; [done|]. split.
  - by eapply loop_shown.
  - intros current total (j & [= -> ->] & Hj%elem_of_seq)%list_elem_of_fmap.
    lia.
Qed.

Lemma progress_reported_once_per_title_witness :
  calm (fresh [Response 200 (Some the_matrix); Response 200 (Some no_such_movie)]) /\
  encodable_titles ascii_lower ascii_strip
    ["The Matrix"; "Nonexistent Movie XYZ"] /\
  exists classified self' w',
    classify_movies ascii_lower readable_digest ascii_strip a_classifier
      ["The Matrix"; "Nonexistent Movie XYZ"] true
      (fresh [Response 200 (Some the_matrix); Response 200 (Some no_such_movie)])
    = (Returns classified, self', w') /\
    shown w'
    = shown (fresh [Response 200 (Some the_matrix);
                    Response 200 (Some no_such_movie)]) ++
      ((fun j => (j + 1, 2)) <$> seq 0 2) /\
    forall current total,
      (current, total) ∈ (fun j => (j + 1, 2)) <$> seq 0 2 ->
      1 <= current <= total /\ total = 2.
Proof.
  split; [by apply fresh_calm|]. split; [by repeat constructor|].
  apply (progress_reported_once_per_title ascii_lower readable_digest
           ascii_strip a_classifier ["The Matrix"; "Nonexistent Movie XYZ"]
           true).
  - by apply fresh_calm.
  - by repeat constructor.
Defined.

(** X8.  Whatever happens, a run of [classify_movies] issues at most one
    request per title: the requests it adds to the log are stripped input
    titles, in input order, each title at most once per position. *)
Theorem classify_movies_requests
    (lower md5_hexdigest strip : string -> string)
    (self : MovieGenreClassifier) (movie_titles : list string)
    (progress_callback : bool) (w : world) :
  exists l,
    sent (classify_movies lower md5_hexdigest strip self movie_titles
            progress_callback w).2
    = sent w ++ l /\
    sublist l (strip <$> movie_titles) /\
    length l <= length movie_titles.
Proof.
  unfold classify_movies.
  destruct (loop_requests lower md5_hexdigest strip (api_handler self)
              progress_callback (length movie_titles) movie_titles 0
              empty_buckets [] w) as (l & Hl & Hsub).
  destruct (classify_loop _ _ _ _ _ _ _ _ _ _ _) as [[o p] w'].
  exists l. split_and!; [done..|].
  apply sublist_length in Hsub. by rewrite length_fmap in Hsub.
Qed.

(** X9.  When [classify_movies] raises, it has stopped at the first title
    whose lookup raised: [processed_movies] holds the records of the titles
    before it, one each and in order, the exception is the one of that
    lookup, and no later title was looked up. *)
Theorem classify_movies_stops_at_first_failure
    (lower md5_hexdigest strip : string -> string)
    (self self' : MovieGenreClassifier) (movie_titles : list string)
    (progress_callback : bool) (w w' : world) (e : exn) :
  classify_movies lower md5_hexdigest strip self movie_titles
    progress_callback w = (Raises e, self', w') ->
  length (processed_movies self') < length movie_titles /\
  exists w0 title,
    served lower md5_hexdigest strip (api_handler self) progress_callback
      (length movie_titles) 0
      (take (length (processed_movies self')) movie_titles) w
      (processed_movies self') w0 /\
    movie_titles !! length (processed_movies self') = Some title /\
    get_movie_data lower md5_hexdigest (api_handler self) (strip title)
      (report progress_callback (length (processed_movies self') + 1)
         (length movie_titles) w0)
    = (Raises e, w').
Proof.
  unfold classify_movies.
  destruct (loop_outcome lower md5_hexdigest strip (api_handler self)
              progress_callback (length movie_titles) movie_titles 0
              empty_buckets [] w empty_buckets_keyed)
    as [(b' & records & w1 & -> & _)
       |(e1 & records & w1 & w0 & title & -> & Hlen & Hs & Ht & Hfail)];
    [done|].
  cbn [app]. intros [= <- <- <-]. cbn [processed_movies].
  split; [done|]. by exists w0, title.
Qed.

Lemma classify_movies_stops_at_first_failure_witness :
  let run :=
    classify_movies ascii_lower readable_digest ascii_strip a_classifier
      ["The Matrix"; "Odd"; "Later"] false
      (fresh [Response 200 (Some the_matrix); Response 200 (Some null_year);
              Response 200 (Some the_matrix)]) in
  run = (Raises AttributeError, run.1.2, run.2) /\
  processed_movies run.1.2 = [matrix_record] /\
  length (processed_movies run.1.2) < 3 /\
  exists w0 title,
    served ascii_lower readable_digest ascii_strip (api_handler a_classifier)
      false 3 0
      (take (length (processed_movies run.1.2)) ["The Matrix"; "Odd"; "Later"])
      (fresh [Response 200 (Some the_matrix); Response 200 (Some null_year);
              Response 200 (Some the_matrix)])
      (processed_movies run.1.2) w0 /\
    ["The Matrix"; "Odd"; "Later"] !! length (processed_movies run.1.2)
    = Some title /\
    get_movie_data ascii_lower readable_digest (api_handler a_classifier)
      (ascii_strip title)
      (report false (length (processed_movies run.1.2) + 1) 3 w0)
    = (Raises AttributeError, run.2).
Proof.
  cbv zeta.
  assert (Hrun :
    classify_movies ascii_lower readable_digest ascii_strip a_classifier
      ["The Matrix"; "Odd"; "Later"] false
      (fresh [Response 200 (Some the_matrix); Response 200 (Some null_year);
              Response 200 (Some the_matrix)])
    = (Raises AttributeError,
       (classify_movies ascii_lower readable_digest ascii_strip a_classifier
          ["The Matrix"; "Odd"; "Later"] false
          (fresh [Response 200 (Some the_matrix); Response 200 (Some null_year);
                  Response 200 (Some the_matrix)])).1.2,
       (classify_movies ascii_lower readable_digest ascii_strip a_classifier
          ["The Matrix"; "Odd"; "Later"] false
          (fresh [Response 200 (Some the_matrix); Response 200 (Some null_year);
                  Response 200 (Some the_matrix)])).2))
    by (vm_compute; reflexivity).
  split; [exact Hrun|]. split; [vm_compute; reflexivity|].
  exact (classify_movies_stops_at_first_failure ascii_lower readable_digest
           ascii_strip a_classifier _ ["The Matrix"; "Odd"; "Later"] false
           _ _ AttributeError Hrun).
Defined.

(** ** Statistics of a run *)

Lemma occurrences_cons k g gs :
  occurrences k (g :: gs) = (if bool_decide (g = k) then 1 else 0) + occurrences k gs.
Proof.
  unfold occurrences. rewrite filter_cons.
  case_decide; case_bool_decide; done.
Qed.

Lemma occurrences_app k gs1 gs2 :
  occurrences k (gs1 ++ gs2) = occurrences k gs1 + occurrences k gs2.
Proof. unfold occurrences. by rewrite filter_app, length_app. Qed.

Lemma count_genres_counts gs counts (f : string -> nat) :
  (forall k, dict_get counts k = tally (f k)) ->
  exists counts',
    count_genres (PStr <$> gs) counts = Returns counts' /\
    forall k, dict_get counts' k = tally (f k + occurrences k gs).
Proof.
  revert counts f. induction gs as [|g gs IH]; intros counts f Hc.
  { exists counts. split; [done|]. intros k. by rewrite Nat.add_0_r. }
  rewrite fmap_cons. cbn [count_genres count_genre]. rewrite (Hc g).
  assert (Hstep : exists counts1,
    match tally (f g) with
    | Some (PInt n) => Returns (dict_set counts g (PInt (n + 1)))
    | Some _ => Raises TypeError
    | None => Returns (dict_set counts g (PInt 1))
    end = Returns counts1 /\
    forall k, dict_get counts1 k
              = tally (f k + if bool_decide (g = k) then 1 else 0)).
  { destruct (f g) as [|m] eqn:Hf; cbn [tally]; eexists; (split; [done|]);
      intros k; rewrite dict_get_set; case_bool_decide as Hk.
    - subst k. rewrite String.eqb_refl, Hf. done.
    - apply String.eqb_neq in Hk. rewrite Hk, Nat.add_0_r. apply Hc.
    - subst k. rewrite String.eqb_refl, Hf, Nat.add_1_r. cbn [tally].
      do 2 f_equal. lia.
    - apply String.eqb_neq in Hk. rewrite Hk, Nat.add_0_r. apply Hc. }
  destruct Hstep as (counts1 & -> & Hc1). cbn [and_then].
  destruct (IH counts1 _ Hc1) as (counts' & -> & Hc').
  exists counts'. split; [done|]. intros k.
  rewrite Hc', occurrences_cons. f_equal. lia.
Qed.

Lemma count_all_counts records counts (f : string -> nat) :
  Forall plain records ->
  (forall k, dict_get counts k = tally (f k)) ->
  exists counts',
    count_all records counts = Returns counts' /\
    forall k, dict_get counts' k
              = tally (f k + occurrences k (all_genres records)).
Proof.
  intros Hp. revert counts f.
  induction Hp as [|r records Hr _ IH]; intros counts f Hc.
  { exists counts. split; [done|]. intros k. by rewrite Nat.add_0_r. }
  destruct (plain_tags r Hr) as (d & -> & Hg).
  cbn [count_all method_get and_then]. unfold get_or. rewrite Hg.
  cbn [iterate and_then].
  destruct (count_genres_counts (genre_tags (PDict d)) counts f Hc)
    as (counts1 & -> & Hc1).
  cbn [and_then]. destruct (IH counts1 _ Hc1) as (counts' & -> & Hc').
  exists counts'. split; [done|]. intros k.
  rewrite Hc'. unfold all_genres. cbn [flat_map].
  rewrite occurrences_app. f_equal. lia.
Qed.

Lemma count_if_le test records n :
  count_if test records = Returns n -> n <= length records.
Proof.
  revert n. induction records as [|r records IH]; intros n.
  { by intros [= <-]. }
  cbn [count_if]. destruct (test r) as [b|]; [|done]. cbn [and_then].
  destruct (count_if test records) as [m|]; [|done]. cbn [and_then].
  intros [= <-]. specialize (IH m eq_refl). destruct b; cbn [length]; lia.
Qed.

Lemma settled_plain r : genres_settled r -> plain r.
Proof. intros (d & -> & Hg & _). by eexists _, _. Qed.

(** A record that is not found counts among the unknown genres. *)
Lemma counts_cover records found unknown :
  Forall genres_settled records ->
  count_if is_found records = Returns found ->
  count_if has_unknown_genres records = Returns unknown ->
  length records <= found + unknown.
Proof.
  intros Hs. revert found unknown.
  induction Hs as [|r records (d & -> & Hg & Hnf & _) _ IH];
    intros found unknown.
  { by intros [= <-] [= <-]. }
  cbn [count_if is_found has_unknown_genres method_get and_then].
  destruct (count_if is_found records) as [f|]; [|done].
  destruct (count_if has_unknown_genres records) as [u|].
  2:{ by destruct (negb (truthy _)). }
  specialize (IH f u eq_refl eq_refl). cbn [and_then].
  destruct (eq_str (get_or d "source" PNone) "Not Found") eqn:Hsrc;
    cbn [negb]; intros [= <-].
  - specialize (Hnf eq_refl). unfold get_or. rewrite Hg, Hnf.
    cbn. intros [= <-]. cbn [length]. lia.
  - intros Hu. cbn [length].
    destruct (negb (truthy (get_or d "genres" PNone)));
      cbn [and_then] in Hu; injection Hu as <-;
      try destruct (eq_str_list _ _); lia.
Qed.

Section outcome_of_run.

Variable lower : string -> string.
Variable md5_hexdigest : string -> string.
Variable strip : string -> string.

(** In a calm world a run over titles that can be encoded returns with one
    settled record per title. *)
Lemma run_settled self movie_titles progress_callback w :
  calm w ->
  encodable_titles lower strip movie_titles ->
  exists classified self' w',
    classify_movies lower md5_hexdigest strip self movie_titles
      progress_callback w = (Returns classified, self', w') /\
    length (processed_movies self') = length movie_titles /\
    Forall genres_settled (processed_movies self') /\
    forall k,
      classified !! k =
      if bool_decide (k ∈ bucket_keys)
      then Some (flat_map
                   (fun r => replicate (appearances k (genre_tags r)) r)
                   (processed_movies self'))
      else None.
Proof.
  intros Hc He. unfold classify_movies.
  destruct (classify_loop_spec lower md5_hexdigest strip (api_handler self)
              progress_callback (length movie_titles) movie_titles 0
              empty_buckets [] w Hc He empty_buckets_keyed)
    as (b' & records & w' & Hrun & _ & _ & Hs & _).
  rewrite Hrun. cbn [app] in Hrun. eexists _, _, _. split; [done|].
  cbn [processed_movies app]. split_and!.
  - by eapply served_length.
  - eapply served_Forall; [|exact Hs]. intros.
    by eapply get_movie_data_genres.
  - by eapply classified_lookup.
Qed.

End outcome_of_run.

(** X10.  After a run over at least one title, all of which can be
    encoded, in a world whose payloads have the provider's shape,
    [genre_counts] maps every genre to the number of times it occurs in the
    genre lists of the processed records, and has no entry for a genre that
    does not occur. *)
Theorem genre_counts_count_occurrences
    (lower md5_hexdigest strip : string -> string)
    (self : MovieGenreClassifier) (movie_titles : list string)
    (progress_callback : bool) (w : world) :
  calm w ->
  encodable_titles lower strip movie_titles ->
  movie_titles <> [] ->
  exists classified self' w' stats counts,
    classify_movies lower md5_hexdigest strip self movie_titles
      progress_callback w = (Returns classified, self', w') /\
    get_statistics self' = Returns stats /\
    dict_get stats "genre_counts" = Some (PDict counts) /\
    forall g,
      dict_get counts g
      = tally (occurrences g (all_genres (processed_movies self'))).
Proof.
  intros Hc He Hne.
  destruct (run_settled lower md5_hexdigest strip self movie_titles
              progress_callback w Hc He)
    as (classified & self' & w' & Hrun & Hlen & Hs & _).
  exists classified, self', w'. unfold get_statistics.
  destruct (processed_movies self') as [|m ms] eqn:Hp.
  { destruct movie_titles; [done|discriminate Hlen]. }
  assert (Hplain : Forall plain (m :: ms)).
  { eapply Forall_impl; [exact Hs|]. apply settled_plain. }
  cbn [truthy negb].
  destruct (count_if_returns is_found (m :: ms)) as [found ->]; [|done|].
  { intros d. unfold is_found. cbn. by eauto. }
  destruct (count_if_returns has_unknown_genres (m :: ms)) as [unknown ->];
    [|done|].
  { intros d. unfold has_unknown_genres. cbn. destruct (negb _); by eauto. }
  destruct (count_all_counts (m :: ms) [] (fun _ => 0) Hplain)
    as (counts & -> & Hcounts); [done|].
  cbn [and_then]. eexists _, counts. split_and!; [done..|].
  intros g. by rewrite Hcounts.
Qed.

Lemma genre_counts_count_occurrences_witness :
  calm (fresh [Response 200 (Some the_matrix); Response 200 (Some no_such_movie)]) /\
  encodable_titles ascii_lower ascii_strip
    ["The Matrix"; "Nonexistent Movie XYZ"] /\
  ["The Matrix"; "Nonexistent Movie XYZ"] <> [] /\
  exists classified self' w' stats counts,
    classify_movies ascii_lower readable_digest ascii_strip a_classifier
      ["The Matrix"; "Nonexistent Movie XYZ"] false
      (fresh [Response 200 (Some the_matrix); Response 200 (Some no_such_movie)])
    = (Returns classified, self', w') /\
    get_statistics self' = Returns stats /\
    dict_get stats "genre_counts" = Some (PDict counts) /\
    forall g,
      dict_get counts g
      = tally (occurrences g (all_genres (processed_movies self'))).
Proof.
  split; [by apply fresh_calm|]. split; [by repeat constructor|].
  split; [discriminate|].
  apply (genre_counts_count_occurrences ascii_lower readable_digest
           ascii_strip a_classifier ["The Matrix"; "Nonexistent Movie XYZ"]
           false);
    [by apply fresh_calm|by repeat constructor|discriminate].
Defined.

(** X11.  After such a run (at least one title, titles that can be
    encoded, payloads of the provider's shape) the counts of
    [get_statistics] fit together: [total_movies] is the number of titles,
    [found_movies] is at most that, [not_found_movies] is the rest, and
    every record that was not found is counted in [unknown_genres], which
    is at most the total. *)
Theorem statistics_counts_fit
    (lower md5_hexdigest strip : string -> string)
    (self : MovieGenreClassifier) (movie_titles : list string)
    (progress_callback : bool) (w : world) :
  calm w ->
  encodable_titles lower strip movie_titles ->
  movie_titles <> [] ->
  exists classified self' w' stats found unknown,
    classify_movies lower md5_hexdigest strip self movie_titles
      progress_callback w = (Returns classified, self', w') /\
    get_statistics self' = Returns stats /\
    dict_get stats "total_movies"
    = Some (PInt (Z.of_nat (length movie_titles))) /\
    dict_get stats "found_movies" = Some (PInt (Z.of_nat found)) /\
    dict_get stats "not_found_movies"
    = Some (PInt (Z.of_nat (length movie_titles - found))) /\
    dict_get stats "unknown_genres" = Some (PInt (Z.of_nat unknown)) /\
    found <= length movie_titles /\
    length movie_titles - found <= unknown <= length movie_titles.
Proof.
  intros Hc He Hne.
  destruct (run_settled lower md5_hexdigest strip self movie_titles
              progress_callback w Hc He)
    as (classified & self' & w' & Hrun & Hlen & Hs & _).
  exists classified, self', w'. unfold get_statistics.
  destruct (processed_movies self') as [|m ms] eqn:Hp.
  { destruct movie_titles; [done|discriminate Hlen]. }
  assert (Hplain : Forall plain (m :: ms)).
  { eapply Forall_impl; [exact Hs|]. apply settled_plain. }
  cbn [truthy negb].
  destruct (count_if_returns is_found (m :: ms)) as [found Hfound]; [|done|].
  { intros d. unfold is_found. cbn. by eauto. }
  destruct (count_if_returns has_unknown_genres (m :: ms))
    as [unknown Hunknown]; [|done|].
  { intros d. unfold has_unknown_genres. cbn. destruct (negb _); by eauto. }
  destruct (count_all_returns (m :: ms) [] Hplain) as [counts Hcounts];
    [done|].
  rewrite Hfound, Hunknown, Hcounts. cbn [and_then].
  pose proof (count_if_le _ _ _ Hfound) as Hf.
  pose proof (count_if_le _ _ _ Hunknown) as Hu.
  pose proof (counts_cover _ _ _ Hs Hfound Hunknown) as Hcov.
  rewrite Hlen in Hf, Hu, Hcov |- *.
  eexists _, found, unknown. split_and!; try done; try lia.
  cbn. do 2 f_equal. lia.
Qed.

Lemma statistics_counts_fit_witness :
  calm (fresh [Response 200 (Some the_matrix); Response 200 (Some no_such_movie)]) /\
  encodable_titles ascii_lower ascii_strip
    ["The Matrix"; "Nonexistent Movie XYZ"] /\
  ["The Matrix"; "Nonexistent Movie XYZ"] <> [] /\
  exists classified self' w' stats found unknown,
    classify_movies ascii_lower readable_digest ascii_strip a_classifier
      ["The Matrix"; "Nonexistent Movie XYZ"] false
      (fresh [Response 200 (Some the_matrix); Response 200 (Some no_such_movie)])
    = (Returns classified, self', w') /\
    get_statistics self' = Returns stats /\
    dict_get stats "total_movies" = Some (PInt (Z.of_nat 2)) /\
    dict_get stats "found_movies" = Some (PInt (Z.of_nat found)) /\
    dict_get stats "not_found_movies" = Some (PInt (Z.of_nat (2 - found))) /\
    dict_get stats "unknown_genres" = Some (PInt (Z.of_nat unknown)) /\
    found <= 2 /\
    2 - found <= unknown <= 2.
Proof.
  split; [by apply fresh_calm|]. split; [by repeat constructor|].
  split; [discriminate|].
  apply (statistics_counts_fit ascii_lower readable_digest ascii_strip
           a_classifier ["The Matrix"; "Nonexistent Movie XYZ"] false);
    [by apply fresh_calm|by repeat constructor|discriminate].
Defined.

(** ** Splitting and joining *)

Lemma prefix_app sep s :
  String.prefix sep s = true -> exists s', s = sep +:+ s'.
Proof.
  revert s. induction sep as [|a sep IH]; intros s; [by exists s|].
  destruct s as [|b s]; cbn [String.prefix]; [done|].
  destruct (ascii_dec a b) as [->|]; [|done].
  intros (s' & ->)%IH. by exists s'.
Qed.

Lemma split_from_skip sep u s :
  split_from sep (u +:+ s) (String.length u) = split_from sep s 0.
Proof.
  induction u as [|c u IH]; [by destruct s|]. by cbn.
Qed.

Lemma join_cons_char sep c piece pieces :
  join sep (String c piece :: pieces) = String c (join sep (piece :: pieces)).
Proof. by destruct pieces. Qed.

Lemma join_empty_head sep piece pieces :
  join sep ("" :: piece :: pieces) = sep +:+ join sep (piece :: pieces).
Proof. reflexivity. Qed.

Lemma length_append_r u s : String.length s <= String.length (u +:+ s).
Proof.
  induction u as [|c u IH]; [done|].
  change (String.length s <= S (String.length (u +:+ s))). lia.
Qed.

(** Splitting at a non-empty separator and joining with it again gives
    the string back. *)
Lemma join_split sep s : sep <> "" -> join sep (split sep s) = s.
Proof.
  intros Hsep. unfold split.
  remember (String.length s) as n eqn:Hn.
  revert s Hn. induction n as [n IH] using lt_wf_ind. intros s ->.
  destruct s as [|c rest]; [done|]. cbn [split_from].
  destruct (String.prefix sep (String c rest)) eqn:Hp.
  - apply prefix_app in Hp as (s' & Hs).
    destruct sep as [|a sep']; [done|]. injection Hs as -> ->.
    replace (String.length (String a sep') - 1) with (String.length sep')
      by (cbn [String.length]; lia).
    rewrite split_from_skip.
    destruct (split_from_cons (String a sep') s' 0) as (p & ps & Hsplit).
    rewrite Hsplit, join_empty_head, <-Hsplit.
    rewrite (IH (String.length s')); [done| |done].
    cbn [String.length]. pose proof (length_append_r sep' s'). lia.
  - destruct (split_from_cons sep rest 0) as (p & ps & Hsplit).
    rewrite Hsplit, join_cons_char, <-Hsplit.
    by rewrite (IH (String.length rest)); [|cbn; lia|].
Qed.

(** ** Export *)

(** X12.  Over titles that can be encoded, in a world whose payloads have
    the provider's shape, [export_to_dataframe] after a run returns one row
    per title, in the order of [processed_movies]; each row is the one of
    its record, and its [Genres] cell is the record's genres joined with
    [", "]. *)
Theorem export_one_row_per_title
    (lower md5_hexdigest strip : string -> string)
    (self : MovieGenreClassifier) (movie_titles : list string)
    (progress_callback : bool) (w : world) :
  calm w ->
  encodable_titles lower strip movie_titles ->
  exists classified self' w' rows,
    classify_movies lower md5_hexdigest strip self movie_titles
      progress_callback w = (Returns classified, self', w') /\
    export_to_dataframe self' = Returns rows /\
    length rows = length movie_titles /\
    Forall2
      (fun r row =>
         export_row r = Returns row /\
         dict_get row "Genres" = Some (PStr (join ", " (genre_tags r))))
      (processed_movies self') rows.
Proof.
  intros Hc He.
  destruct (run_settled lower md5_hexdigest strip self movie_titles
              progress_callback w Hc He)
    as (classified & self' & w' & Hrun & Hlen & Hs & _).
  exists classified, self', w'. unfold export_to_dataframe.
  assert (Hplain : Forall plain (processed_movies self')).
  { eapply Forall_impl; [exact Hs|]. apply settled_plain. }
  destruct (export_rows_plain _ Hplain) as (rows & Hrows & Hall).
  exists rows. split_and!; [done..| |].
  - by rewrite <-(Forall2_length _ _ _ Hall).
  - clear Hrows Hlen Hs. induction Hall as [|r row rs rows' Hrow _ IH];
      [constructor|].
    apply Forall_cons in Hplain as [Hr Hrest].
    constructor; [|by apply IH]. split; [done|].
    destruct (plain_tags r Hr) as (d & -> & Hg).
    rewrite (export_row_plain _ _ Hg) in Hrow. by injection Hrow as <-.
Qed.

Lemma export_one_row_per_title_witness :
  calm (fresh [Response 200 (Some the_matrix); Response 200 (Some no_such_movie)]) /\
  encodable_titles ascii_lower ascii_strip
    ["The Matrix"; "Nonexistent Movie XYZ"] /\
  exists classified self' w' rows,
    classify_movies ascii_lower readable_digest ascii_strip a_classifier
      ["The Matrix"; "Nonexistent Movie XYZ"] false
      (fresh [Response 200 (Some the_matrix); Response 200 (Some no_such_movie)])
    = (Returns classified, self', w') /\
    export_to_dataframe self' = Returns rows /\
    length rows = 2 /\
    Forall2
      (fun r row =>
         export_row r = Returns row /\
         dict_get row "Genres" = Some (PStr (join ", " (genre_tags r))))
      (processed_movies self') rows.
Proof.
  split; [by apply fresh_calm|]. split; [by repeat constructor|].
  apply (export_one_row_per_title ascii_lower readable_digest ascii_strip
           a_classifier ["The Matrix"; "Nonexistent Movie XYZ"] false).
  - by apply fresh_calm.
  - by repeat constructor.
Defined.

(** X13.  For a found record, the exported [Genres] cell is the provider's
    [Genre] string itself, whatever it is: splitting it at [", "] and
    joining the pieces with [", "] gives it back. *)
Theorem exported_genres_is_provider_genre
    (payload : pydict) (movie_title s : string) (d : pydict) :
  found_record (PDict payload) movie_title = Returns d ->
  dict_get payload "Genre" = Some (PStr s) ->
  exists row,
    export_row (PDict d) = Returns row /\
    dict_get row "Genres" = Some (PStr s).
Proof.
  intros Hf Hg. apply found_record_inv in Hf as (p & [= <-] & ->).
  rewrite (export_row_plain _ (genres_of payload)) by done.
  eexists. split; [done|]. cbn [dict_get String.eqb Ascii.eqb Bool.eqb].
  unfold genres_of. rewrite Hg.
  destruct (String.eqb s "") eqn:He.
  - apply String.eqb_eq in He as ->. done.
  - by rewrite join_split.
Qed.

Lemma exported_genres_is_provider_genre_witness :
  found_record (PDict matrix_payload) "The Matrix" = Returns matrix_fields /\
  dict_get matrix_payload "Genre" = Some (PStr "Action, Sci-Fi") /\
  exists row,
    export_row (PDict matrix_fields) = Returns row /\
    dict_get row "Genres" = Some (PStr "Action, Sci-Fi").
Proof.
  split; [reflexivity|]. split; [reflexivity|].
  by apply (exported_genres_is_provider_genre matrix_payload "The Matrix").
Defined.

(** ** The year *)

(** X14.  For a found record, a [Year] without an en-dash (the usual
    four digits) is copied to [year] unchanged. *)
Theorem year_without_dash_is_kept
    (payload : pydict) (movie_title s : string) (d : pydict) :
  found_record (PDict payload) movie_title = Returns d ->
  dict_get payload "Year" = Some (PStr s) ->
  has_substring "–" s = false ->
  dict_get d "year" = Some (PStr s).
Proof.
  intros Hf Hy Hs. apply found_record_inv in Hf as (p & [= <-] & ->).
  cbn [dict_get String.eqb Ascii.eqb Bool.eqb].
  by rewrite (year_of_single _ _ Hy Hs).
Qed.

Lemma year_without_dash_is_kept_witness :
  found_record (PDict matrix_payload) "The Matrix" = Returns matrix_fields /\
  dict_get matrix_payload "Year" = Some (PStr "1999") /\
  has_substring "–" "1999" = false /\
  dict_get matrix_fields "year" = Some (PStr "1999").
Proof.
  split_and!; [reflexivity..|].
  by apply (year_without_dash_is_kept matrix_payload "The Matrix" "1999"
              matrix_fields).
Defined.

(** ** The tabs of the interface *)




(** The tabs of the scenario of the spec, in the order of the taxonomy. *)
Example the_matrix_tabs :
  genres_with_movies
    (match (classify_movies ascii_lower readable_digest ascii_strip
              a_classifier ["The Matrix"] false
              (fresh [Response 200 (Some the_matrix)])).1.1 with
     | Returns classified => Some classified
     | Raises _ => None
     end)
  = ["Action"; "Unknown"].
Proof. vm_compute. reflexivity. Qed.

(** ** A run without a credential *)

Lemma appearances_unknown k :
  appearances k ["Unknown"] = if bool_decide (k = "Unknown") then 1 else 0.
Proof.
  cbn [appearances]. rewrite fan_out_cons.
  change (lands "Unknown") with "Unknown".
  rewrite (bool_decide_ext ("Unknown" = k) (k = "Unknown")) by done.
  unfold fan_out. cbn [filter list_filter length].
  repeat case_bool_decide; done.
Qed.

Lemma classify_loop_unusable_buckets lower md5_hexdigest strip handler cb
    total titles i b processed w :
  omdb_api_key handler = "" \/ omdb_api_key handler = "4bcd5aba" ->
  keyed b ->
  exists b',
    (classify_loop lower md5_hexdigest strip handler cb total titles i b
       processed w).1.1 = Returns b' /\
    forall k l, b !! k = Some l ->
      b' !! k =
      Some (l ++ if bool_decide (k = "Unknown")
                 then (fun t => PDict (not_found_record (strip t))) <$> titles
                 else []).
Proof.
  intros Hk. revert i b processed w.
  induction titles as [|title rest IH]; intros i b processed w Hb.
  { exists b. split; [done|]. intros k l ->.
    by destruct (bool_decide _); rewrite app_nil_r. }
  cbn [classify_loop]. rewrite get_movie_data_unusable by done.
  destruct (add_to_categories_spec (PDict (not_found_record (strip title))) b Hb)
    as (b1 & -> & Hb1 & Hl1); [by eexists _, ["Unknown"]|].
  destruct (IH (S i) b1 (processed ++ [PDict (not_found_record (strip title))])
              (report cb (i + 1) total w) Hb1) as (b' & -> & Hl').
  exists b'. split; [done|]. intros k l Hl.
  rewrite (Hl' _ _ (Hl1 _ _ Hl)), <-app_assoc. f_equal. f_equal.
  change (genre_tags (PDict (not_found_record (strip title))))
    with ["Unknown"].
  rewrite appearances_unknown. by case_bool_decide.
Qed.

Lemma defaults_found (strip : string -> string) titles :
  count_if is_found ((fun t => PDict (not_found_record (strip t))) <$> titles)
  = Returns 0.
Proof.
  induction titles as [|t ts IH]; [done|].
  rewrite fmap_cons. cbn [count_if]. rewrite IH. done.
Qed.

Lemma defaults_unknown (strip : string -> string) titles :
  count_if has_unknown_genres
    ((fun t => PDict (not_found_record (strip t))) <$> titles)
  = Returns (length titles).
Proof.
  induction titles as [|t ts IH]; [done|].
  rewrite fmap_cons. cbn [count_if]. rewrite IH. done.
Qed.

Lemma defaults_counted (strip : string -> string) titles k :
  count_all ((fun t => PDict (not_found_record (strip t))) <$> titles)
    [("Unknown", PInt k)]
  = Returns [("Unknown", PInt (k + Z.of_nat (length titles)))].
Proof.
  revert k. induction titles as [|t ts IH]; intros k.
  { cbn. by rewrite Z.add_0_r. }
  rewrite fmap_cons. cbn [count_all]. 
  change (method_get (PDict (not_found_record (strip t))) "genres" (PList []))
    with (Returns (PList [PStr "Unknown"])).
  cbn [and_then iterate count_genres count_genre dict_get dict_set
       String.eqb Ascii.eqb Bool.eqb].
  rewrite IH. do 4 f_equal. cbn [length]. lia.
Qed.

Lemma defaults_counted_all (strip : string -> string) titles :
  titles <> [] ->
  count_all ((fun t => PDict (not_found_record (strip t))) <$> titles) []
  = Returns [("Unknown", PInt (Z.of_nat (length titles)))].
Proof.
  destruct titles as [|t ts]; [done|]. intros _.
  rewrite fmap_cons. cbn [count_all].
  change (method_get (PDict (not_found_record (strip t))) "genres" (PList []))
    with (Returns (PList [PStr "Unknown"])).
  cbn [and_then iterate count_genres count_genre dict_get dict_set].
  rewrite defaults_counted. do 4 f_equal. cbn [length]. lia.
Qed.

Lemma defaults_truthy (strip : string -> string) titles :
  titles <> [] ->
  negb (truthy (PList ((fun t => PDict (not_found_record (strip t)))
                         <$> titles))) = false.
Proof. by destruct titles. Qed.

(** X16.  With the credential unset, empty, or the placeholder (the state
    of the program as configured in [config.py]), a run over n >= 1 titles
    files every record under ["Unknown"] and under no taxonomy genre, and
    its statistics report 0 found, n not found, n unknown genres and the
    genre counts [{"Unknown": n}]. *)
Theorem run_without_credential
    (lower md5_hexdigest strip : string -> string) (env : option string)
    (movie_titles : list string) (progress_callback : bool) (w : world) :
  env = None \/ env = Some "" \/ env = Some "4bcd5aba" ->
  movie_titles <> [] ->
  exists classified self' w' stats,
    classify_movies lower md5_hexdigest strip (new_classifier env)
      movie_titles progress_callback w = (Returns classified, self', w') /\
    classified !! "Unknown" = Some (processed_movies self') /\
    (forall g, g ∈ DEFAULT_GENRES -> classified !! g = Some []) /\
    get_statistics self' = Returns stats /\
    dict_get stats "found_movies" = Some (PInt 0) /\
    dict_get stats "not_found_movies"
    = Some (PInt (Z.of_nat (length movie_titles))) /\
    dict_get stats "unknown_genres"
    = Some (PInt (Z.of_nat (length movie_titles))) /\
    dict_get stats "genre_counts"
    = Some (PDict [("Unknown", PInt (Z.of_nat (length movie_titles)))]).
Proof.
  intros Henv Hne.
  assert (Hk : omdb_api_key (new_handler env) = "" \/
               omdb_api_key (new_handler env) = "4bcd5aba").
  { destruct Henv as [->|[->| ->]]; cbn; auto. }
  unfold classify_movies.
  destruct (classify_loop_unusable lower md5_hexdigest strip
              (api_handler (new_classifier env)) progress_callback
              (length movie_titles) movie_titles 0 empty_buckets [] w Hk
              empty_buckets_keyed) as (b0 & Hrun).
  destruct (classify_loop_unusable_buckets lower md5_hexdigest strip
              (api_handler (new_classifier env)) progress_callback
              (length movie_titles) movie_titles 0 empty_buckets [] w Hk
              empty_buckets_keyed) as (b' & Hb' & Hl).
  rewrite Hrun in Hb' |- *. injection Hb' as ->.
  eexists _, _, _, _. split; [done|]. cbn [processed_movies app].
  split_and!.
  - rewrite (Hl "Unknown" []); [done|]. rewrite empty_buckets_lookup.
    by rewrite (bool_decide_eq_true_2 _ unknown_is_key).
  - intros g Hg.
    rewrite (Hl g []).
    + rewrite bool_decide_eq_false_2; [done|]. intros ->. revert Hg.
      by apply (bool_decide_unpack _); vm_compute.
    + rewrite empty_buckets_lookup.
      rewrite bool_decide_eq_true_2; [done|]. apply bucket_keys_inv. by left.
  - unfold get_statistics. cbn [processed_movies].
    rewrite (defaults_truthy strip _ Hne), defaults_found, defaults_unknown.
    cbn [and_then]. rewrite (defaults_counted_all strip _ Hne).
    cbn [and_then]. reflexivity.
  - done.
  - rewrite length_fmap. cbn. do 2 f_equal. lia.
  - by rewrite length_fmap.
  - done.
Qed.

Lemma run_without_credential_witness :
  (@None string = None \/ None = Some "" \/ None = Some "4bcd5aba") /\
  ["The Matrix"; "Heat"] <> [] /\
  exists classified self' w' stats,
    classify_movies ascii_lower readable_digest ascii_strip
      (new_classifier None) ["The Matrix"; "Heat"] false
      (fresh [Response 200 (Some the_matrix)])
    = (Returns classified, self', w') /\
    classified !! "Unknown" = Some (processed_movies self') /\
    (forall g, g ∈ DEFAULT_GENRES -> classified !! g = Some []) /\
    get_statistics self' = Returns stats /\
    dict_get stats "found_movies" = Some (PInt 0) /\
    dict_get stats "not_found_movies" = Some (PInt (Z.of_nat 2)) /\
    dict_get stats "unknown_genres" = Some (PInt (Z.of_nat 2)) /\
    dict_get stats "genre_counts"
    = Some (PDict [("Unknown", PInt (Z.of_nat 2))]).
Proof.
  split; [by left|]. split; [discriminate|].
  apply (run_without_credential ascii_lower readable_digest ascii_strip None
           ["The Matrix"; "Heat"] false);
    [by left|discriminate].
Defined.
